(** * Quota accounting and prompt-quality scoring of [backend/app.py]

    A shallow embedding of the request path of the prompt-enhancement
    backend: the quality scorer ([analyze_prompt_quality],
    [generate_recommendations]), the fallback template
    ([generate_fallback_prompt]), the usage counter kept in the [users]
    collection ([update_prompt_usage_stats]) and the [/generate] handler
    that ties them together.

    Conventions.
    - A Python [str] is a [string]; one character stands for one code
      point, so the texts covered are those of code points below 256.
    - A Python [int] is a [Z]; a Python [float] is a binary64 [float].
    - A Python [dict] whose order is observable is an association list in
      insertion order; a Firestore document is a [gmap string value].
    - A call that can raise returns a [result]; [Raise] carries the
      exception.
    - The clock, the exceptions of the Firestore calls and the answer of
      the model are inputs of a request ([env]); the module-level [model]
      is not defined in the file and is taken as such an input. *)

From Stdlib Require Import ZArith Floats Lia Bool.
From stdpp Require Import base option list gmap strings.

Local Open Scope Z_scope.

(** ** Text primitives *)

Definition nl : string := String (Ascii.ascii_of_nat 10) EmptyString.
Definition dquote : string := String (Ascii.ascii_of_nat 34) EmptyString.

Definition code (c : Ascii.ascii) : Z := Z.of_N (Ascii.N_of_ascii c).
Definition chr (n : Z) : Ascii.ascii := Ascii.ascii_of_N (Z.to_N n).

(** [str.isspace] on the code points below 256: TAB..CR, FS..US, SPACE,
    NEL and NBSP. *)
Definition isspace (c : Ascii.ascii) : bool :=
  let n := code c in
  ((9 <=? n) && (n <=? 13)) || ((28 <=? n) && (n <=? 32))
  || (n =? 133) || (n =? 160).

(** [str.lower]: A..Z and the Latin-1 capitals (all of 192..222 but the
    multiplication sign 215) move up by 32. *)
Definition lower_char (c : Ascii.ascii) : Ascii.ascii :=
  let n := code c in
  if ((65 <=? n) && (n <=? 90))
     || ((192 <=? n) && (n <=? 222) && negb (n =? 215))
  then chr (n + 32) else c.

Fixpoint lower (s : string) : string :=
  match s with
  | EmptyString => EmptyString
  | String c s' => String (lower_char c) (lower s')
  end.

(** [str.upper]: a..z and the Latin-1 small letters 224..254 (but the
    division sign 247) move down by 32, and the sharp s (223) becomes SS.
    Python sends the micro sign (181) and y-diaeresis (255) to code points
    above 255; they are left as they are here, so [upper] is exact on every
    other character. *)
Definition upper_char (c : Ascii.ascii) : string :=
  let n := code c in
  if ((97 <=? n) && (n <=? 122))
     || ((224 <=? n) && (n <=? 254) && negb (n =? 247))
  then String (chr (n - 32)) EmptyString
  else if n =? 223 then "SS"
  else String c EmptyString.

Fixpoint upper (s : string) : string :=
  match s with
  | EmptyString => EmptyString
  | String c s' => upper_char c +:+ upper s'
  end.

Definition is_empty (s : string) : bool :=
  match s with EmptyString => true | String _ _ => false end.

Fixpoint rev_string (acc s : string) : string :=
  match s with
  | EmptyString => acc
  | String c s' => rev_string (String c acc) s'
  end.

(** [str.split()] with no separator: the maximal runs of characters that
    are not white space, in order.  [cur] is the run being read, last
    character first. *)
Fixpoint split_from (cur s : string) : list string :=
  match s with
  | EmptyString =>
      if is_empty cur then [] else [rev_string EmptyString cur]
  | String c s' =>
      if isspace c
      then (if is_empty cur then split_from EmptyString s'
            else rev_string EmptyString cur :: split_from EmptyString s')
      else split_from (String c cur) s'
  end.

Definition split (s : string) : list string := split_from EmptyString s.

Fixpoint lstrip (s : string) : string :=
  match s with
  | EmptyString => EmptyString
  | String c s' => if isspace c then lstrip s' else s
  end.

Fixpoint rstrip (s : string) : string :=
  match s with
  | EmptyString => EmptyString
  | String c s' =>
      let r := rstrip s' in
      if isspace c && is_empty r then EmptyString else String c r
  end.

(** [str.strip()] *)
Definition strip (s : string) : string := rstrip (lstrip s).

Fixpoint startswith (p s : string) : bool :=
  match p, s with
  | EmptyString, _ => true
  | String _ _, EmptyString => false
  | String a p', String b s' =>
      if Ascii.eqb a b then startswith p' s' else false
  end.

(** [needle in hay] on strings. *)
Fixpoint contains (needle hay : string) : bool :=
  startswith needle hay
  || match hay with
     | EmptyString => false
     | String _ hay' => contains needle hay'
     end.

(** [a == b] on strings. *)
Definition str_eqb (a b : string) : bool := String.eqb a b.

(** [any(word in text for word in words)] *)
Definition any_in (words : list string) (text : string) : bool :=
  existsb (fun w => contains w text) words.

(** ** Exceptions *)

Inductive exn : Type :=
  | KeyError (key : string)
  | TypeError
  | ZeroDivisionError
  | ExternalError (text : string).

Inductive result (A : Type) : Type :=
  | Ok (a : A)
  | Raise (e : exn).
Arguments Ok {A} a.
Arguments Raise {A} e.

Definition bind {A B : Type} (r : result A) (k : A -> result B) : result B :=
  match r with
  | Ok a => k a
  | Raise e => Raise e
  end.

Notation "x <- r ;; k" := (bind r (fun x => k))
  (at level 100, r at next level, right associativity).

(** ** Dictionaries in insertion order *)

Fixpoint dict_get {A : Type} (k : string) (d : list (string * A)) : option A :=
  match d with
  | [] => None
  | (k', v) :: d' => if str_eqb k k' then Some v else dict_get k d'
  end.

(** [d[k] = v]: an existing key keeps its place, a new key goes last. *)
Fixpoint dict_set {A : Type} (k : string) (v : A) (d : list (string * A))
  : list (string * A) :=
  match d with
  | [] => [(k, v)]
  | (k', v') :: d' =>
      if str_eqb k k' then (k', v) :: d' else (k', v') :: dict_set k v d'
  end.

(** [d[k]], which raises [KeyError] on a missing key. *)
Definition getitem {A : Type} (d : list (string * A)) (k : string) : result A :=
  match dict_get k d with
  | Some v => Ok v
  | None => Raise (KeyError k)
  end.

(** ** Floats *)

(** [float(n)] for an [int]; exact when [|n| <= 2^53], which covers every
    count it is applied to below. *)
Definition float_of_int (n : Z) : float :=
  if n <? 0 then PrimFloat.opp (of_uint63 (Uint63.of_Z (- n)))
  else of_uint63 (Uint63.of_Z n).

(** [a / b] on two [int]s. *)
Definition truediv (a b : Z) : result float :=
  if b =? 0 then Raise ZeroDivisionError
  else Ok (PrimFloat.div (float_of_int a) (float_of_int b)).

(** [num / den] rounded to the nearest integer, ties to the even one
    ([den > 0]). *)
Definition round_half_even (num den : Z) : Z :=
  let q := num / den in
  match (2 * (num mod den) ?= den) with
  | Lt => q
  | Gt => q + 1
  | Eq => if Z.even q then q else q + 1
  end.

(** The binary64 number nearest to the decimal [t / 10] ([|t| <= 2^53]). *)
Definition tenths (t : Z) : float := PrimFloat.div (float_of_int t) 10%float.

(** [round(x, 1)]: the exact value [m * 2^e] of [x] is rounded to one
    decimal place, ties to even, and the decimal is read back as the
    nearest binary64.  With an exponent of -3 or more, [x] is a multiple of
    1/8 of magnitude at least 2^49: the decimal is within 0.05 of [x],
    less than half the distance to the next float, and reads back as [x].
    Below that the rounded count of tenths is less than 2^53, so [tenths]
    is exact on it. *)
Definition round1 (x : float) : float :=
  match Prim2SF x with
  | S754_finite s m e =>
      if -3 <=? e then x
      else
        let r := tenths (round_half_even (Z.pos m * 10) (2 ^ (- e))) in
        if s then PrimFloat.opp r else r
  | _ => x
  end.

(** ** The quality scorer *)

Record report : Type := {
  quality_score : float;
  indicators : list (string * bool);
  word_count : Z;
  recommendations : list string
}.

Definition append_if (c : bool) (s : string) (l : list string) : list string :=
  if c then l ++ [s] else l.

(** [prompt_type in ["text", "code", "data"]] *)
Definition wants_examples (prompt_type : string) : bool :=
  existsb (str_eqb prompt_type) ["text"; "code"; "data"].

Definition generate_recommendations
    (indicators : list (string * bool)) (prompt_type : string)
  : result (list string) :=
  let recommendations := [] in
  specificity <- getitem indicators "specificity" ;;
  let recommendations :=
    append_if (negb specificity)
      "Add more specific details and concrete requirements" recommendations in
  structure <- getitem indicators "structure" ;;
  let recommendations :=
    append_if (negb structure)
      "Consider adding a clear structure or format specification"
      recommendations in
  constraints <- getitem indicators "constraints" ;;
  let recommendations :=
    append_if (negb constraints)
      "Define constraints or limitations to guide the AI" recommendations in
  examples <- getitem indicators "examples" ;;
  let recommendations :=
    append_if (negb examples && wants_examples prompt_type)
      "Include examples to clarify expected output" recommendations in
  recommendations <-
    (if str_eqb prompt_type "image" then
       visual <- getitem indicators "visual_elements" ;;
       Ok (append_if (negb visual)
             "Add more visual details like lighting, composition, or style"
             recommendations)
     else Ok recommendations) ;;
  recommendations <-
    (if str_eqb prompt_type "video" then
       temporal <- getitem indicators "temporal_elements" ;;
       Ok (append_if (negb temporal)
             "Include temporal elements like pacing, sequencing, or duration"
             recommendations)
     else Ok recommendations) ;;
  Ok recommendations.

(** The seven indicators of every prompt type, in the order of the literal. *)
Definition base_indicators (prompt : string) (count : Z)
  : list (string * bool) :=
  let text := lower prompt in
  [ ("specificity",
      any_in ["specific"; "detailed"; "exact"; "precise"; "concrete"] text);
    ("structure",
      any_in ["format"; "structure"; "section"; "outline"; "template"] text);
    ("constraints",
      any_in ["must"; "should"; "require"; "constraint"; "limit"] text);
    ("examples", contains "example" text || contains "for instance" text);
    ("tone_appropriate",
      any_in ["professional"; "formal"; "academic"; "technical"] text);
    ("has_objective",
      (20 <? count) && any_in ["objective"; "goal"; "purpose"; "aim"] text);
    ("appropriate_length", (50 <=? count) && (count <=? 500)) ].

(** The type-specific checks. *)
Definition type_indicators (prompt prompt_type : string)
    (quality_indicators : list (string * bool)) : list (string * bool) :=
  let text := lower prompt in
  if str_eqb prompt_type "image" then
    dict_set "visual_elements"
      (any_in ["lighting"; "composition"; "style"; "angle"; "resolution"] text)
      quality_indicators
  else if str_eqb prompt_type "video" then
    dict_set "temporal_elements"
      (any_in ["movement"; "sequence"; "timing"; "duration"; "pace"] text)
      quality_indicators
  else if str_eqb prompt_type "code" then
    dict_set "technical_specs"
      (any_in ["function"; "input"; "output"; "test"; "error"] text)
      quality_indicators
  else quality_indicators.

(** [sum(d.values())] on booleans: the number of true ones. *)
Definition sum_values (d : list (string * bool)) : Z :=
  fold_right (fun (kv : string * bool) (acc : Z) =>
                (if snd kv then 1 else 0) + acc) 0 d.

Definition analyze_prompt_quality (prompt prompt_type : string)
  : result report :=
  let words := split prompt in
  let word_count := Z.of_nat (length words) in
  let quality_indicators :=
    type_indicators prompt prompt_type (base_indicators prompt word_count) in
  let score := sum_values quality_indicators in
  let max_score := Z.of_nat (length quality_indicators) in
  ratio <- truediv score max_score ;;
  let quality_score := PrimFloat.mul ratio 100%float in
  recommendations <- generate_recommendations quality_indicators prompt_type ;;
  Ok {| quality_score := round1 quality_score;
        indicators := quality_indicators;
        word_count := word_count;
        recommendations := recommendations |}.

(** ** The fallback template *)

Definition templates : list (string * string) :=
  [ ("text",
      "OBJECTIVE: Clearly define the primary goal" +:+ nl +:+
      "CONTEXT: Provide necessary background" +:+ nl +:+
      "FORMAT: Specify output structure" +:+ nl +:+
      "KEY REQUIREMENTS: List essential elements" +:+ nl +:+
      "TONE: Define appropriate tone" +:+ nl +:+
      "CONSTRAINTS: Set clear limitations" +:+ nl +:+
      "EXPECTED OUTPUT: Describe what success looks like");
    ("image",
      "SUBJECT: Main focus of the image" +:+ nl +:+
      "ACTION: What's happening" +:+ nl +:+
      "ENVIRONMENT: Where it takes place" +:+ nl +:+
      "STYLE: Artistic approach" +:+ nl +:+
      "LIGHTING: Lighting conditions" +:+ nl +:+
      "COMPOSITION: Framing and angle" +:+ nl +:+
      "MOOD: Emotional atmosphere" +:+ nl +:+
      "TECHNICAL: Resolution and quality");
    ("video",
      "SCENE: Main visual sequence" +:+ nl +:+
      "MOVEMENT: Camera and subject motion" +:+ nl +:+
      "STYLE: Cinematic approach" +:+ nl +:+
      "PACING: Timing and rhythm" +:+ nl +:+
      "AUDIO: Sound elements" +:+ nl +:+
      "LENGTH: Duration" +:+ nl +:+
      "ASPECT RATIO: Frame dimensions");
    ("code",
      "FUNCTION: What the code should do" +:+ nl +:+
      "INPUT: Required inputs" +:+ nl +:+
      "OUTPUT: Expected outputs" +:+ nl +:+
      "CONSTRAINTS: Technical limitations" +:+ nl +:+
      "ERROR HANDLING: How to handle issues" +:+ nl +:+
      "TESTING: Verification requirements" +:+ nl +:+
      "DOCUMENTATION: Code documentation needs") ].

Definition fallback_header (user_input prompt_type : string) : string :=
  "Professional " +:+ upper prompt_type +:+ " Prompt for: " +:+ user_input
  +:+ nl +:+ nl.

Definition generate_fallback_prompt (user_input prompt_type : string)
  : result string :=
  let base_prompt := fallback_header user_input prompt_type in
  text_template <- getitem templates "text" ;;
  Ok (base_prompt +:+ default text_template (dict_get prompt_type templates)).

(** ** Calendar dates *)

Record date : Type := { year : Z; month : Z; day : Z }.

Definition is_leap (y : Z) : bool :=
  (y mod 4 =? 0) && (negb (y mod 100 =? 0) || (y mod 400 =? 0)).

Definition days_in_month (y m : Z) : Z :=
  if m =? 2 then (if is_leap y then 29 else 28)
  else if (m =? 4) || (m =? 6) || (m =? 9) || (m =? 11) then 30
  else 31.

(** The dates [datetime.date] can hold. *)
Definition valid_date (d : date) : bool :=
  (1 <=? year d) && (year d <=? 9999)
  && (1 <=? month d) && (month d <=? 12)
  && (1 <=? day d) && (day d <=? days_in_month (year d) (month d)).

(** [a < b] on dates. *)
Definition date_ltb (a b : date) : bool :=
  (year a <? year b)
  || ((year a =? year b)
      && ((month a <? month b)
          || ((month a =? month b) && (day a <? day b)))).

Definition digit (n : Z) : Ascii.ascii := chr (48 + n mod 10).

Definition pad2 (n : Z) : string :=
  String (digit (n / 10)) (String (digit n) EmptyString).

Definition pad4 (n : Z) : string :=
  String (digit (n / 1000)) (String (digit (n / 100)) (pad2 n)).

(** [date.isoformat()]: YYYY-MM-DD. *)
Definition isoformat (d : date) : string :=
  pad4 (year d) +:+ "-" +:+ pad2 (month d) +:+ "-" +:+ pad2 (day d).

(** ** The document store *)

(** The field values the handlers read and write: [int], [str] and
    [datetime] (as a time stamp). *)
Inductive value : Type :=
  | VInt (n : Z)
  | VStr (s : string)
  | VTime (t : Z).

Global Instance value_eq_dec : EqDecision value.
Proof. solve_decision. Defined.

Abbreviation doc := (gmap string value).

Fixpoint str_leb (a b : string) : bool :=
  match a, b with
  | EmptyString, _ => true
  | String _ _, EmptyString => false
  | String x a', String y b' =>
      (code x <? code y) || ((code x =? code y) && str_leb a' b')
  end.

(** [a >= b]: defined between two values of one type only. *)
Definition py_ge (a b : value) : result bool :=
  match a, b with
  | VInt x, VInt y => Ok (y <=? x)
  | VStr x, VStr y => Ok (str_leb y x)
  | VTime x, VTime y => Ok (y <=? x)
  | _, _ => Raise TypeError
  end.

(** [d.get(k, 0) + 1] *)
Definition get_plus_one (d : doc) (k : string) : result value :=
  match default (VInt 0) (d !! k) with
  | VInt n => Ok (VInt (n + 1))
  | _ => Raise TypeError
  end.

(** One reading of the clock, [datetime.now()]. *)
Record clock : Type := { now_date : date; now_stamp : Z }.

(** Lines 155-159 of [update_prompt_usage_stats]: the daily reset. *)
Definition apply_rollover (today : string) (current_data : doc) : doc :=
  if bool_decide (current_data !! "last_reset_date" = Some (VStr today))
  then current_data
  else <["last_reset_date" := VStr today]>
         (<["prompts_today" := VInt 0]> current_data).

(** Lines 148-164 of [update_prompt_usage_stats]: from what [user_ref.get()]
    returned to the dictionary handed to [user_ref.set].  The clock is read
    once: for a missing document the default [last_reset_date] is replaced
    by [today] whenever the two differ, with [prompts_today] 0 either way. *)
Definition updated_stats (now : clock) (read : option doc) : result doc :=
  let today := isoformat (now_date now) in
  let current_data :=
    match read with
    | Some d => d
    | None =>
        <["total_prompts" := VInt 0]>
          (<["prompts_today" := VInt 0]>
             (<["last_reset_date" := VStr today]>
                (<["created_at" := VTime (now_stamp now)]> ∅)))
    end in
  let current_data := apply_rollover today current_data in
  total <- get_plus_one current_data "total_prompts" ;;
  let current_data := <["total_prompts" := total]> current_data in
  count <- get_plus_one current_data "prompts_today" ;;
  let current_data := <["prompts_today" := count]> current_data in
  Ok (<["updated_at" := VTime (now_stamp now)]> current_data).

(** [user_ref.set(data, merge=True)]: the fields of [data] replace those of
    the stored document, the other stored fields stay. *)
Definition set_merge (user_id : string) (data : doc)
    (users : gmap string doc) : gmap string doc :=
  <[user_id := data ∪ default ∅ (users !! user_id)]> users.

Record metadata : Type := {
  m_type : string;
  m_complexity : string;
  m_quality_score : float;
  m_model_used : string;
  m_timestamp : Z
}.

Record prompt_data : Type := {
  p_user_id : string;
  p_original_prompt : string;
  p_enhanced_prompt : string;
  p_prompt_type : string;
  p_metadata : metadata;
  p_created_at : Z;
  p_updated_at : Z;
  p_word_count : Z;
  p_character_count : Z
}.

(** The state shared by all requests.  [firebase_ready] is
    [firebase_initialized and db], fixed when the module is loaded. *)
Record world : Type := {
  firebase_ready : bool;
  users : gmap string doc;
  prompts : list (string * prompt_data)
}.

(** What the collaborators do during one request: the clock, the
    exception (if any) each Firestore call raises, the id Firestore gives a
    new prompt document, and the model's answer to a request text. *)
Record env : Type := {
  now : clock;
  check_get_raises : option exn;
  stats_get_raises : option exn;
  stats_set_raises : option exn;
  prompt_set_raises : option exn;
  new_id : string;
  model_text : string -> result string
}.

Definition attempt (raises : option exn) : result unit :=
  match raises with
  | Some e => Raise e
  | None => Ok tt
  end.

Definition update_prompt_usage_stats (w : world) (e : env) (user_id : string)
  : world :=
  if negb (firebase_ready w) then w
  else
    let written :=
      _ <- attempt (stats_get_raises e) ;;
      current_data <- updated_stats (now e) (users w !! user_id) ;;
      _ <- attempt (stats_set_raises e) ;;
      Ok (set_merge user_id current_data (users w)) in
    match written with
    | Ok users' =>
        {| firebase_ready := firebase_ready w;
           users := users';
           prompts := prompts w |}
    | Raise _ => w
    end.

Definition str_len (s : string) : Z := Z.of_nat (String.length s).

Definition save_prompt_to_firestore (w : world) (e : env)
    (user_id original_prompt enhanced_prompt prompt_type : string)
    (meta : metadata) : option string * world :=
  if negb (firebase_ready w) then (None, w)
  else
    let data :=
      {| p_user_id := user_id;
         p_original_prompt := original_prompt;
         p_enhanced_prompt := enhanced_prompt;
         p_prompt_type := prompt_type;
         p_metadata := meta;
         p_created_at := now_stamp (now e);
         p_updated_at := now_stamp (now e);
         p_word_count := Z.of_nat (length (split enhanced_prompt));
         p_character_count := str_len enhanced_prompt |} in
    match prompt_set_raises e with
    | Some _ => (None, w)
    | None =>
        (Some (new_id e),
         {| firebase_ready := firebase_ready w;
            users := users w;
            prompts := prompts w ++ [(new_id e, data)] |})
    end.

(** ** The [/generate] handler *)

Record request : Type := {
  req_user : option string;        (* the verified uid, if any *)
  req_prompt : option string;
  req_type : option string;
  req_complexity : option string
}.

Inductive body : Type :=
  | ErrorBody (error : string)
  | LimitBody (error : string) (limit used : value)
  | SuccessBody (professional_prompt prompt_type complexity : string)
      (quality_metrics : report) (word_count character_count : Z)
      (prompt_id : option string) (authenticated : bool)
  | FallbackBody (error : exn) (fallback_prompt : string).

Record response : Type := { status : Z; payload : body }.

Definition enhancement_context (user_input prompt_type complexity : string)
  : string :=
  nl +:+ "    ENHANCEMENT REQUEST:" +:+ nl +:+
  "    User Input: " +:+ dquote +:+ user_input +:+ dquote +:+ nl +:+
  "    Prompt Type: " +:+ upper prompt_type +:+ nl +:+
  "    Desired Complexity: " +:+ upper complexity +:+ nl +:+
  "    " +:+ nl +:+
  "    Please apply the appropriate enhancement framework for "
  +:+ prompt_type +:+ " prompts." +:+ nl +:+
  "    ".

Definition type_specific_instruction (prompt_type : string) : string :=
  if str_eqb prompt_type "image" then
    " Focus on visual details, composition, and artistic elements."
  else if str_eqb prompt_type "video" then
    " Emphasize movement, sequencing, and cinematic techniques."
  else if str_eqb prompt_type "code" then
    " Include specific requirements, edge cases, and testing scenarios."
  else EmptyString.

(** Lines 321-342: the rate limit of an authenticated caller.  [Ok None]
    lets the request go on, [Ok (Some r)] answers it with [r], and [Raise]
    is an exception that nothing in the handler catches. *)
Definition check_rate_limit (w : world) (e : env) (user : option string)
  : result (option response) :=
  match user with
  | None => Ok None
  | Some user_id =>
      if firebase_ready w then
        _ <- attempt (check_get_raises e) ;;
        match users w !! user_id with
        | None => Ok None
        | Some user_data =>
            let daily_limit := default (VInt 100) (user_data !! "daily_limit") in
            let prompts_today := default (VInt 0) (user_data !! "prompts_today") in
            reached <- py_ge prompts_today daily_limit ;;
            if (reached : bool) then
              Ok (Some {| status := 429;
                          payload := LimitBody "Daily limit reached"
                                       daily_limit prompts_today |})
            else Ok None
        end
      else Ok None
  end.

Definition full_input (user_input prompt_type complexity : string) : string :=
  enhancement_context user_input prompt_type complexity
  +:+ type_specific_instruction prompt_type
  +:+ nl +:+ nl +:+ "Enhanced Professional Prompt:".

(** The body of the [try] block, lines 355-408. *)
Definition enhance (w : world) (e : env) (user : option string)
    (user_input prompt_type complexity : string) : result (response * world) :=
  text <- model_text e (full_input user_input prompt_type complexity) ;;
  let enhanced_prompt := strip text in
  quality_metrics <- analyze_prompt_quality enhanced_prompt prompt_type ;;
  let meta :=
    {| m_type := prompt_type;
       m_complexity := complexity;
       m_quality_score := quality_score quality_metrics;
       m_model_used := "gemini-1.5-flash";
       m_timestamp := now_stamp (now e) |} in
  let '(prompt_id, w') :=
    match user with
    | Some user_id =>
        let '(prompt_id, w1) :=
          save_prompt_to_firestore w e user_id user_input enhanced_prompt
            prompt_type meta in
        (prompt_id, update_prompt_usage_stats w1 e user_id)
    | None => (None, w)
    end in
  Ok ({| status := 200;
         payload :=
           SuccessBody enhanced_prompt prompt_type complexity quality_metrics
             (Z.of_nat (length (split enhanced_prompt)))
             (str_len enhanced_prompt) prompt_id
             (bool_decide (is_Some user)) |},
      w').

(** Lines 354-415: the [try] block and its handler.  Every exception of
    [enhance] is raised before it writes anything, so the handler runs in
    the world the block started in. *)
Definition try_enhance (w : world) (e : env) (user : option string)
    (user_input prompt_type complexity : string) : result response * world :=
  match enhance w e user user_input prompt_type complexity with
  | Ok (resp, w') => (Ok resp, w')
  | Raise x =>
      (fallback <- generate_fallback_prompt user_input prompt_type ;;
       Ok {| status := 500; payload := FallbackBody x fallback |},
       w)
  end.

Definition generate (w : world) (e : env) (r : request)
  : result response * world :=
  let user_input := strip (default EmptyString (req_prompt r)) in
  let prompt_type := lower (default "text" (req_type r)) in
  let complexity := default "detailed" (req_complexity r) in
  if is_empty user_input then
    (Ok {| status := 400; payload := ErrorBody "Input is empty" |}, w)
  else
    match check_rate_limit w e (req_user r) with
    | Raise x => (Raise x, w)
    | Ok (Some denied) => (Ok denied, w)
    | Ok None =>
        try_enhance w e (req_user r) user_input prompt_type complexity
    end.

(** ** Concurrent calls of [update_prompt_usage_stats]

    Each call awaits twice, once for [user_ref.get()] and once for
    [user_ref.set(...)]; the code between the two runs without interruption.
    A task is therefore at one of three points, and a schedule names, step
    by step, the task that runs up to its next await.  The tasks share one
    reading of the clock: they run within one day, and the time stamp does
    not enter the counts. *)

Inductive task : Type :=
  | Idle
  | Loaded (read : option doc)
  | Finished.

Record system : Type := {
  store : gmap string doc;
  tasks : list task
}.

Definition step (user_id : string) (now : clock) (s : system) (i : nat)
  : system :=
  match tasks s !! i with
  | Some Idle =>
      {| store := store s;
         tasks := <[i := Loaded (store s !! user_id)]> (tasks s) |}
  | Some (Loaded read) =>
      {| store :=
           match updated_stats now read with
           | Ok current_data => set_merge user_id current_data (store s)
           | Raise _ => store s
           end;
         tasks := <[i := Finished]> (tasks s) |}
  | _ => s
  end.

Definition run (user_id : string) (now : clock) (s : system)
    (schedule : list nat) : system :=
  fold_left (step user_id now) schedule s.

(** [n] tasks one after the other: 0, 0, 1, 1, ... *)
Fixpoint sequential (first n : nat) : list nat :=
  match n with
  | O => []
  | S n' => first :: first :: sequential (S first) n'
  end.

Definition start (users : gmap string doc) (n : nat) : system :=
  {| store := users; tasks := replicate n Idle |}.

(** [prompts_today] of a user as stored. *)
Definition stored_count (users : gmap string doc) (user_id : string)
  : option value :=
  users !! user_id ≫= (.!! "prompts_today").
(** ** Reference definitions the statements compare the code with *)

(** The rule table of the recommendations, in priority order: the
    indicator a rule looks at, the prompt types it applies to, and its
    advisory. *)
Definition rule_table : list (string * (string -> bool) * string) :=
  [ ("specificity", (fun _ => true),
      "Add more specific details and concrete requirements");
    ("structure", (fun _ => true),
      "Consider adding a clear structure or format specification");
    ("constraints", (fun _ => true),
      "Define constraints or limitations to guide the AI");
    ("examples", wants_examples,
      "Include examples to clarify expected output");
    ("visual_elements", (fun t => str_eqb t "image"),
      "Add more visual details like lighting, composition, or style");
    ("temporal_elements", (fun t => str_eqb t "video"),
      "Include temporal elements like pacing, sequencing, or duration") ].

(** The advisories of the rules that apply to [prompt_type] and whose
    indicator is false, in the order of the table. *)
Definition advisories (indicators : list (string * bool))
    (prompt_type : string) : list string :=
  flat_map
    (fun rule : string * (string -> bool) * string =>
       let '(name, applies, advisory) := rule in
       if applies prompt_type
          && bool_decide (dict_get name indicators = Some false)
       then [advisory] else [])
    rule_table.

(** The number of true indicators. *)
Definition count_true (d : list (string * bool)) : nat :=
  length (filter (fun kv : string * bool => snd kv = true) d).

(** The number of false indicators. *)
Definition count_false (d : list (string * bool)) : nat :=
  length (filter (fun kv : string * bool => snd kv = false) d).

(** The score as the specification words it: 100 times the number of true
    indicators over the number of indicators, to one decimal place. *)
Definition score_of_counts (trues total : Z) : float :=
  tenths (round_half_even (100 * trues * 10) total).

(** A text of [n] words. *)
Fixpoint words (n : nat) : string :=
  match n with
  | O => EmptyString
  | S n' => "word " +:+ words n'
  end.

(** The indicator [name] of the report on [prompt], if there is one. *)
Definition indicator (prompt prompt_type name : string) : option bool :=
  match analyze_prompt_quality prompt prompt_type with
  | Ok r => dict_get name (indicators r)
  | Raise _ => None
  end.

(** The count an update starts from when [user_ref.get()] returned [read]:
    0 for a missing document and for one last reset on another day, the
    stored [prompts_today] (0 when the field is missing) otherwise. *)
Definition window_count (today : string) (read : option doc) : option Z :=
  match read with
  | None => Some 0
  | Some d =>
      if bool_decide (d !! "last_reset_date" = Some (VStr today)) then
        match d !! "prompts_today" with
        | None => Some 0
        | Some (VInt c) => Some c
        | Some _ => None
        end
      else Some 0
  end.

(** The lifetime total is an [int] or not there yet, so that adding one to
    it does not raise. *)
Definition total_is_int (read : option doc) : Prop :=
  match read ≫= (.!! "total_prompts") with
  | None | Some (VInt _) => True
  | Some _ => False
  end.

(** An update that has read [read] succeeds and starts from the count [c]. *)
Definition starts_at (today : string) (c : Z) (read : option doc) : Prop :=
  window_count today read = Some c /\ total_is_int read.

(** The document belongs to the day [today], its counter stands at [c] and
    its lifetime total is an [int]: what an update writes. *)
Definition counted (today : string) (c : Z) (d : doc) : Prop :=
  d !! "last_reset_date" = Some (VStr today)
  /\ d !! "prompts_today" = Some (VInt c)
  /\ exists t, d !! "total_prompts" = Some (VInt t).

(** The number of tasks that have written. *)
Fixpoint finished_count (l : list task) : Z :=
  match l with
  | [] => 0
  | Finished :: l' => 1 + finished_count l'
  | _ :: l' => finished_count l'
  end.

(** What every state reached by updates of one user satisfies, from a
    counter that stood at [c]: the stored count and every count a task has
    read lie between [c] and [c] plus the number of writes so far, and once
    a task has written the stored count is above [c]. *)
Definition reachable_inv (user_id today : string) (c : Z) (s : system)
  : Prop :=
  (exists k,
      starts_at today k (store s !! user_id)
      /\ c <= k <= c + finished_count (tasks s)
      /\ (0 < finished_count (tasks s) ->
          c + 1 <= k
          /\ exists dk, store s !! user_id = Some dk /\ counted today k dk))
  /\ forall i read,
      tasks s !! i = Some (Loaded read) ->
      exists j,
        starts_at today j read /\ c <= j <= c + finished_count (tasks s).

(** ** Concrete inputs used by the examples *)

Definition day1 : date := {| year := 2024; month := 1; day := 1 |}.
Definition day2 : date := {| year := 2024; month := 1; day := 2 |}.

(** A user who used the whole allowance of 100 on [day1]. *)
Definition spent_doc : doc :=
  <["daily_limit" := VInt 100]>
    (<["prompts_today" := VInt 100]>
       (<["last_reset_date" := VStr (isoformat day1)]> ∅)).

(** A user with no prompt yet on [day2]. *)
Definition fresh_doc : doc :=
  <["total_prompts" := VInt 0]>
    (<["prompts_today" := VInt 0]>
       (<["last_reset_date" := VStr (isoformat day2)]> ∅)).

Definition world_of (ready : bool) (d : doc) : world :=
  {| firebase_ready := ready; users := {["u1" := d]}; prompts := [] |}.

(** The second day, a store and a model that answer. *)
Definition calm : env :=
  {| now := {| now_date := day2; now_stamp := 86400 |};
     check_get_raises := None;
     stats_get_raises := None;
     stats_set_raises := None;
     prompt_set_raises := None;
     new_id := "p1";
     model_text := fun _ => Ok "Write a formal report." |}.

(** As [calm], but reading the user's document raises. *)
Definition store_down : env :=
  {| now := now calm;
     check_get_raises := Some (ExternalError "503 unavailable");
     stats_get_raises := Some (ExternalError "503 unavailable");
     stats_set_raises := Some (ExternalError "503 unavailable");
     prompt_set_raises := Some (ExternalError "503 unavailable");
     new_id := new_id calm;
     model_text := model_text calm |}.

(** As [calm], but the model call raises. *)
Definition model_down : env :=
  {| now := now calm;
     check_get_raises := None;
     stats_get_raises := None;
     stats_set_raises := None;
     prompt_set_raises := None;
     new_id := new_id calm;
     model_text := fun _ => Raise (ExternalError "quota exceeded") |}.

Definition signed_in : request :=
  {| req_user := Some "u1";
     req_prompt := Some "a report";
     req_type := None;
     req_complexity := None |}.

(** A user allowed one prompt a day, none used yet on [day2]. *)
Definition single_doc : doc := <["daily_limit" := VInt 1]> fresh_doc.

(** ** Splitting on a separator *)

Fixpoint drop_chars (n : nat) (s : string) : string :=
  match n, s with
  | O, _ => s
  | S _, EmptyString => EmptyString
  | S n', String _ s' => drop_chars n' s'
  end.

(** [s.split(sep)] for a separator that is not empty (Python raises on an
    empty one): the pieces of [s] between the occurrences of [sep], found
    from the left and without overlap.  [cur] is the piece being read, last
    character first, and [skip] the number of characters of a separator
    still to pass. *)
Fixpoint split_on_from (sep : string) (skip : nat) (cur s : string)
  : list string :=
  match s with
  | EmptyString => [rev_string EmptyString cur]
  | String c s' =>
      match skip with
      | S k => split_on_from sep k cur s'
      | O =>
          if startswith sep s
          then rev_string EmptyString cur
               :: split_on_from sep (String.length sep - 1) EmptyString s'
          else split_on_from sep 0 (String c cur) s'
      end
  end.

Definition split_on (sep s : string) : list string :=
  split_on_from sep 0 EmptyString s.

(** [sep.join(pieces)] *)
Fixpoint join (sep : string) (pieces : list string) : string :=
  match pieces with
  | [] => EmptyString
  | [x] => x
  | x :: rest => x +:+ sep +:+ join sep rest
  end.

(** ** The authentication decorators *)

(** The token of an [Authorization] header, lines 41-44 and 59-62:
    [None] when the header is missing, empty or does not start with the
    bearer prefix, and otherwise [auth_header.split('Bearer ')[1]], whose
    index raises when there is no second piece. *)
Definition header_token (auth_header : option string)
  : option (result string) :=
  match auth_header with
  | None => None
  | Some h =>
      if negb (is_empty h) && startswith "Bearer " h then
        Some (match split_on "Bearer " h !! 1%nat with
              | Some token => Ok token
              | None => Raise (ExternalError "list index out of range")
              end)
      else None
  end.

(** What a route under [login_required] answers: the 401 of the decorator
    or what the handler returned. *)
Inductive guarded (A : Type) : Type :=
  | Rejected (error : string) (details : option exn)
  | Handled (a : A).
Arguments Rejected {A} error details.
Arguments Handled {A} a.

(** [login_required], lines 38-54.  [verify] is [auth.verify_id_token]
    followed by the reading of the uid; [f] is the decorated handler.  The
    split of the header stands before the [try]; the call of the handler
    stands inside it, so an exception of the handler is answered like one
    of the verification. *)
Definition login_required {A : Type} (verify : string -> result string)
    (f : string -> result A) (auth_header : option string)
  : result (guarded A) :=
  match header_token auth_header with
  | None => Ok (Rejected "Authentication required" None)
  | Some token =>
      token <- token ;;
      match (uid <- verify token ;; f uid) with
      | Ok a => Ok (Handled a)
      | Raise x => Ok (Rejected "Invalid authentication token" (Some x))
      end
  end.



(** ** The routes on one prompt *)

(** The document [prompt_id] of the [prompts] collection: the last one
    written under that id. *)
Fixpoint find_prompt (prompt_id : string) (l : list (string * prompt_data))
  : option prompt_data :=
  match l with
  | [] => None
  | (k, d) :: l' =>
      match find_prompt prompt_id l' with
      | Some d' => Some d'
      | None => if str_eqb prompt_id k then Some d else None
      end
  end.

(** [doc_ref.delete()] *)
Definition remove_prompt (prompt_id : string)
    (l : list (string * prompt_data)) : list (string * prompt_data) :=
  List.filter (fun kd : string * prompt_data => negb (str_eqb prompt_id (fst kd)))
    l.

(** The bodies of [get_prompt] and [delete_prompt], with their status. *)
Inductive answer : Type :=
  | Failed (status : Z) (error : string) (details : option exn)
  | Deleted
  | Found (prompt_id : string) (data : prompt_data).

Definition answer_status (a : answer) : Z :=
  match a with
  | Failed s _ _ => s
  | Deleted | Found _ _ => 200
  end.

(** The exceptions, if any, of [doc_ref.get()] and [doc_ref.delete()]. *)
Record prompt_faults : Type := {
  prompt_get_raises : option exn;
  prompt_delete_raises : option exn
}.

(** The handler of [delete_prompt], lines 476-508, for the verified [uid]. *)
Definition delete_prompt (w : world) (f : prompt_faults)
    (uid prompt_id : string) : answer * world :=
  if negb (firebase_ready w) then
    (Failed 503 "Database not available" None, w)
  else
    match prompt_get_raises f with
    | Some x => (Failed 500 "Failed to delete prompt" (Some x), w)
    | None =>
        match find_prompt prompt_id (prompts w) with
        | None => (Failed 404 "Prompt not found" None, w)
        | Some data =>
            if negb (str_eqb (p_user_id data) uid) then
              (Failed 403 "Unauthorized access" None, w)
            else
              match prompt_delete_raises f with
              | Some x => (Failed 500 "Failed to delete prompt" (Some x), w)
              | None =>
                  (Deleted,
                   {| firebase_ready := firebase_ready w;
                      users := users w;
                      prompts := remove_prompt prompt_id (prompts w) |})
              end
        end
    end.

(** The handler of [get_prompt], lines 439-472, for the verified [uid]. *)
Definition get_prompt (w : world) (f : prompt_faults)
    (uid prompt_id : string) : answer :=
  if negb (firebase_ready w) then Failed 503 "Database not available" None
  else
    match prompt_get_raises f with
    | Some x => Failed 500 "Failed to get prompt" (Some x)
    | None =>
        match find_prompt prompt_id (prompts w) with
        | None => Failed 404 "Prompt not found" None
        | Some data =>
            if negb (str_eqb (p_user_id data) uid) then
              Failed 403 "Unauthorized access" None
            else Found prompt_id data
        end
    end.

(** The two routes as registered, under [login_required]. *)
Definition delete_prompt_route (verify : string -> result string)
    (w : world) (f : prompt_faults) (auth_header : option string)
    (prompt_id : string) : result (guarded answer) * world :=
  match login_required verify
          (fun uid => Ok (delete_prompt w f uid prompt_id)) auth_header with
  | Ok (Handled (a, w')) => (Ok (Handled a), w')
  | Ok (Rejected error details) => (Ok (Rejected error details), w)
  | Raise x => (Raise x, w)
  end.

Definition get_prompt_route (verify : string -> result string)
    (w : world) (f : prompt_faults) (auth_header : option string)
    (prompt_id : string) : result (guarded answer) :=
  login_required verify (fun uid => Ok (get_prompt w f uid prompt_id))
    auth_header.

(** ** Requests one after the other *)

Fixpoint serve (w : world) (batch : list (env * request))
  : list (result response) * world :=
  match batch with
  | [] => ([], w)
  | (e, r) :: rest =>
      let '(a, w1) := generate w e r in
      let '(answers, w2) := serve w1 rest in
      (a :: answers, w2)
  end.

Definition status_of (a : result response) : option Z :=
  match a with
  | Ok r => Some (status r)
  | Raise _ => None
  end.

(** During the request the user's document can be read and written and
    the model answers; the day is [today]. *)
Definition healthy (today : date) (e : env) : Prop :=
  now_date (now e) = today
  /\ check_get_raises e = None
  /\ stats_get_raises e = None
  /\ stats_set_raises e = None
  /\ forall x, exists text, model_text e x = Ok text.

(** The request comes from [user_id] and its prompt is not blank. *)
Definition asks (user_id : string) (r : request) : Prop :=
  req_user r = Some user_id
  /\ is_empty (strip (default EmptyString (req_prompt r))) = false.

(** ** Definitions used by the further properties *)

(** The text has only white space. *)
Fixpoint blank (s : string) : bool :=
  match s with
  | EmptyString => true
  | String c s' => isspace c && blank s'
  end.

(** The indicators that are a keyword search alone. *)
Definition keyword_indicators : list string :=
  ["specificity"; "structure"; "constraints"; "examples"; "tone_appropriate";
   "visual_elements"; "temporal_elements"; "technical_specs"].

(** The metadata saved with a prompt, lines 377-383. *)
Definition metadata_of (e : env) (prompt_type complexity : string)
    (quality_metrics : report) : metadata :=
  {| m_type := prompt_type;
     m_complexity := complexity;
     m_quality_score := quality_score quality_metrics;
     m_model_used := "gemini-1.5-flash";
     m_timestamp := now_stamp (now e) |}.

(** What the handler stores after a generation: the prompt id it reports
    and the world it leaves. *)
Definition stored_after (w : world) (e : env) (user : option string)
    (user_input enhanced_prompt prompt_type : string) (meta : metadata)
  : option string * world :=
  match user with
  | Some user_id =>
      let saved :=
        save_prompt_to_firestore w e user_id user_input enhanced_prompt
          prompt_type meta in
      (fst saved, update_prompt_usage_stats (snd saved) e user_id)
  | None => (None, w)
  end.

(** The fields [update_prompt_usage_stats] assigns. *)
Definition touched_fields : list string :=
  ["total_prompts"; "prompts_today"; "last_reset_date"; "updated_at"].

(** A prompt store that answers. *)
Definition no_faults : prompt_faults :=
  {| prompt_get_raises := None; prompt_delete_raises := None |}.

(** The store after the first request of user u1 on [day2]: one prompt,
    under the id p1. *)
Definition stocked : world :=
  snd (generate (world_of true fresh_doc) calm signed_in).

(** * Properties *)

(** ** Text primitives *)

Example split_demo : split ("  two" +:+ nl +:+ "words ") = ["two"; "words"].
Proof. reflexivity. Qed.

Example contains_demo :
  contains "limit" (lower "No LIMITS") = true /\ contains "aim" "am i" = false.
Proof. split; reflexivity. Qed.

Example strip_demo : strip (nl +:+ " a b  ") = "a b".
Proof. reflexivity. Qed.

(** Ties go to the even decimal, as in Python: [round(0.25, 1)] is 0.2 and
    [round(0.75, 1)] is 0.8. *)
Example round1_demo :
  round1 0.25%float = tenths 2 /\ round1 0.75%float = tenths 8
  /\ round1 2.5%float = tenths 25
  /\ round1 (PrimFloat.div 100 7) = tenths 143.
Proof. repeat split; vm_compute; reflexivity. Qed.

Lemma str_eqb_true a b : str_eqb a b = true -> a = b.
Proof. apply String.eqb_eq. Qed.

Lemma code_chr n : 0 <= n < 256 -> code (chr n) = n.
Proof.
  intros H. unfold code, chr.
  rewrite Ascii.N_ascii_embedding by lia. lia.
Qed.

(** ** Dictionaries *)

Lemma dict_get_app_l {A} k (d1 d2 : list (string * A)) v :
  dict_get k d1 = Some v -> dict_get k (d1 ++ d2) = Some v.
Proof.
  induction d1 as [|[k' v'] d1 IH]; cbn; [discriminate|].
  destruct (str_eqb k k'); auto.
Qed.

(** With distinct keys, a lookup does not see the order of insertion. *)
Lemma dict_get_perm {A} k (d d' : list (string * A)) :
  NoDup (map fst d) -> d ≡ₚ d' -> dict_get k d = dict_get k d'.
Proof.
  intros Hnd Hp.
  induction Hp as [|[k1 v1] d d' Hp IH|[k1 v1] [k2 v2] d|d d' d'' H1 IH1 H2 IH2].
  - reflexivity.
  - cbn. cbn in Hnd. apply NoDup_cons in Hnd as [_ Hnd].
    rewrite IH by assumption. reflexivity.
  - cbn. cbn in Hnd. unfold str_eqb.
    destruct (String.eqb_spec k k1) as [->|], (String.eqb_spec k1 k2) as [->|];
      try reflexivity.
    all: try (destruct (String.eqb_spec k k2); reflexivity).
    apply NoDup_cons in Hnd as [Hin _]. exfalso. apply Hin. left.
  - rewrite IH1 by assumption. apply IH2.
    assert (Hp : map fst d ≡ₚ map fst d') by apply Permutation_map, H1.
    rewrite <- Hp. exact Hnd.
Qed.

Lemma generate_recommendations_ext d d' ty :
  (forall k, dict_get k d = dict_get k d') ->
  generate_recommendations d ty = generate_recommendations d' ty.
Proof.
  intros H. unfold generate_recommendations, getitem.
  rewrite !H. reflexivity.
Qed.

(** ** The quality scorer *)

Lemma type_indicators_app prompt ty n :
  type_indicators prompt ty (base_indicators prompt n)
  = base_indicators prompt n ++ type_indicators prompt ty [].
Proof.
  unfold type_indicators.
  destruct (str_eqb ty "image"); [reflexivity|].
  destruct (str_eqb ty "video"); [reflexivity|].
  destruct (str_eqb ty "code"); [reflexivity|].
  symmetry. apply app_nil_r.
Qed.

Lemma base_indicators_shape prompt n :
  exists b1 b2 b3 b4 b5 b6 b7,
    base_indicators prompt n
    = [("specificity", b1); ("structure", b2); ("constraints", b3);
       ("examples", b4); ("tone_appropriate", b5); ("has_objective", b6);
       ("appropriate_length", b7)].
Proof. unfold base_indicators. repeat eexists. Qed.

(** The four ways the type-specific block can go. *)
Lemma type_extra_cases prompt ty :
  (str_eqb ty "image" = true /\
   exists b, type_indicators prompt ty [] = [("visual_elements", b)])
  \/ (str_eqb ty "image" = false /\ str_eqb ty "video" = true /\
      exists b, type_indicators prompt ty [] = [("temporal_elements", b)])
  \/ (str_eqb ty "image" = false /\ str_eqb ty "video" = false /\
      str_eqb ty "code" = true /\
      exists b, type_indicators prompt ty [] = [("technical_specs", b)])
  \/ (str_eqb ty "image" = false /\ str_eqb ty "video" = false /\
      str_eqb ty "code" = false /\ type_indicators prompt ty [] = []).
Proof.
  unfold type_indicators.
  destruct (str_eqb ty "image"); [left; eauto|right].
  destruct (str_eqb ty "video"); [left; eauto|right].
  destruct (str_eqb ty "code"); [left; eauto 6|right]. auto.
Qed.

Ltac type_cases prompt ty :=
  destruct (type_extra_cases prompt ty)
    as [(?E1 & ?b & ?E) | [(?E1 & ?E2 & ?b & ?E)
       | [(?E1 & ?E2 & ?E3 & ?b & ?E) | (?E1 & ?E2 & ?E3 & ?E)]]].

Lemma sum_values_bounds d : 0 <= sum_values d <= Z.of_nat (length d).
Proof.
  induction d as [|[k b] d IH]; cbn [sum_values fold_right length snd].
  - lia.
  - fold (sum_values d). destruct b; lia.
Qed.

Lemma sum_values_count d : sum_values d = Z.of_nat (count_true d).
Proof.
  unfold count_true.
  induction d as [|[k b] d IH]; [reflexivity|].
  cbn [sum_values fold_right snd]. fold (sum_values d). rewrite IH.
  rewrite filter_cons. cbn [snd].
  destruct b; case_decide; try congruence; cbn [length]; lia.
Qed.

Lemma indicators_length prompt ty n :
  Z.of_nat (length (type_indicators prompt ty (base_indicators prompt n)))
  = 7 + (if str_eqb ty "image" || str_eqb ty "video" || str_eqb ty "code"
         then 1 else 0).
Proof.
  rewrite type_indicators_app.
  type_cases prompt ty; rewrite E, ?E1, ?E2, ?E3; reflexivity.
Qed.

Lemma indicators_nodup prompt ty n :
  NoDup (map fst (type_indicators prompt ty (base_indicators prompt n))).
Proof.
  rewrite type_indicators_app.
  destruct (base_indicators_shape prompt n)
    as (b1 & b2 & b3 & b4 & b5 & b6 & b7 & ->).
  type_cases prompt ty; rewrite E; cbn [map fst app];
    apply (bool_decide_unpack _); vm_compute; exact I.
Qed.

(** The float computation of the score, on every pair of counts the
    scorer can produce, is the decimal rounding of the exact quotient, and
    that rounding never meets a tie. *)
Lemma score_table s m :
  (m = 7 \/ m = 8) -> 0 <= s <= m ->
  2 * ((100 * s * 10) mod m) <> m /\
  match truediv s m with
  | Ok ratio => round1 (PrimFloat.mul ratio 100%float) = score_of_counts s m
  | Raise _ => False
  end.
Proof.
  intros Hm Hs.
  assert (Hc : s = 0 \/ s = 1 \/ s = 2 \/ s = 3 \/ s = 4 \/ s = 5 \/ s = 6
               \/ s = 7 \/ s = 8) by lia.
  destruct Hm as [-> | ->];
    repeat (destruct Hc as [-> | Hc]); try subst s; try lia;
    (split; [vm_compute; discriminate | vm_compute; reflexivity]).
Qed.

(** The code never raises [KeyError] on the dictionary it builds, and its
    chain of [if]s yields the advisories of the rule table. *)
Lemma recommendations_ok prompt ty n :
  generate_recommendations
    (type_indicators prompt ty (base_indicators prompt n)) ty
  = Ok (advisories (type_indicators prompt ty (base_indicators prompt n)) ty).
Proof.
  rewrite type_indicators_app.
  destruct (base_indicators_shape prompt n)
    as (b1 & b2 & b3 & b4 & b5 & b6 & b7 & ->).
  type_cases prompt ty; rewrite E.
  - apply str_eqb_true in E1. subst ty.
    destruct b1, b2, b3, b4, b; reflexivity.
  - apply str_eqb_true in E2. subst ty.
    destruct b1, b2, b3, b4, b; reflexivity.
  - apply str_eqb_true in E3. subst ty.
    destruct b1, b2, b3, b4; reflexivity.
  - unfold generate_recommendations, advisories, rule_table.
    cbn -[wants_examples]. rewrite E1, E2. cbn -[wants_examples].
    destruct b1, b2, b3, b4, (wants_examples ty); reflexivity.
Qed.

(** [analyze_prompt_quality] always returns, and this is its report. *)
Lemma analyze_ok prompt ty :
  let n := Z.of_nat (length (split prompt)) in
  let ind := type_indicators prompt ty (base_indicators prompt n) in
  analyze_prompt_quality prompt ty
  = Ok {| quality_score :=
            score_of_counts (sum_values ind) (Z.of_nat (length ind));
          indicators := ind;
          word_count := n;
          recommendations := advisories ind ty |}.
Proof.
  intros n ind. unfold analyze_prompt_quality. fold n. fold ind.
  pose proof (indicators_length prompt ty n) as Hlen. fold ind in Hlen.
  pose proof (sum_values_bounds ind) as Hsum.
  destruct (score_table (sum_values ind) (Z.of_nat (length ind))) as [_ Hs].
  { destruct (_ || _) in Hlen; lia. }
  { lia. }
  destruct (truediv _ _) as [ratio|]; [|contradiction].
  cbn [bind]. unfold ind at 1. rewrite recommendations_ok. fold ind.
  cbn [bind]. rewrite Hs. reflexivity.
Qed.

Lemma appropriate_length_indicator prompt ty :
  let n := Z.of_nat (length (split prompt)) in
  indicator prompt ty "appropriate_length"
  = Some ((50 <=? n) && (n <=? 500)).
Proof.
  intros n. unfold indicator. rewrite analyze_ok. cbn [indicators].
  rewrite type_indicators_app. apply dict_get_app_l. reflexivity.
Qed.

(** The third scenario of the specification. *)
Example scoring_scenario :
  exists r,
    analyze_prompt_quality
      ("A professional, detailed, and specific plan with examples and "
       +:+ "constraints for a technical objective.") "text" = Ok r
    /\ dict_get "specificity" (indicators r) = Some true
    /\ dict_get "constraints" (indicators r) = Some true
    /\ dict_get "examples" (indicators r) = Some true
    /\ recommendations r
       = ["Consider adding a clear structure or format specification"].
Proof. eexists. split; [vm_compute; reflexivity|]. repeat split. Qed.

(** C6.  For every text and prompt type the scorer returns a report whose
    score is 100 times the number of true indicators over the number of
    indicators, rounded to one decimal place (a rounding that never meets
    a tie).  The indicators are the seven base ones, where [has_objective]
    also asks for more than 20 words, followed by exactly one more when the
    type is image, video or code. *)
Theorem quality_score_formula (prompt prompt_type : string) :
  exists r,
    analyze_prompt_quality prompt prompt_type = Ok r /\
    let n := Z.of_nat (length (split prompt)) in
    let trues := Z.of_nat (count_true (indicators r)) in
    let total := Z.of_nat (length (indicators r)) in
    word_count r = n /\
    quality_score r = score_of_counts trues total /\
    2 * ((100 * trues * 10) mod total) <> total /\
    total = 7 + (if str_eqb prompt_type "image" || str_eqb prompt_type "video"
                    || str_eqb prompt_type "code" then 1 else 0) /\
    firstn 7 (indicators r) = base_indicators prompt n /\
    dict_get "has_objective" (indicators r)
    = Some ((20 <? n)
            && any_in ["objective"; "goal"; "purpose"; "aim"] (lower prompt)).
Proof.
  eexists. split; [apply analyze_ok|].
  cbn [word_count quality_score indicators].
  set (n := Z.of_nat (length (split prompt))).
  set (ind := type_indicators prompt prompt_type (base_indicators prompt n)).
  pose proof (indicators_length prompt prompt_type n) as Hlen.
  fold ind in Hlen.
  pose proof (sum_values_bounds ind) as Hsum.
  rewrite <- sum_values_count.
  split; [reflexivity|]. split; [reflexivity|]. split.
  { apply score_table; [destruct (_ || _) in Hlen|]; lia. }
  split; [exact Hlen|].
  unfold ind. rewrite type_indicators_app. split.
  - destruct (base_indicators_shape prompt n)
      as (b1 & b2 & b3 & b4 & b5 & b6 & b7 & ->). reflexivity.
  - apply dict_get_app_l. reflexivity.
Qed.

(** C7.  [appropriate_length] is true exactly when the text has between 50
    and 500 words, both included: false at 49 words, true at 50 and at 500,
    false at 501. *)
Theorem appropriate_length_boundary :
  (forall prompt prompt_type,
      let n := Z.of_nat (length (split prompt)) in
      indicator prompt prompt_type "appropriate_length"
      = Some (bool_decide (50 <= n <= 500)))
  /\ (forall prompt_type,
        length (split (words 49)) = 49%nat /\
        indicator (words 49) prompt_type "appropriate_length" = Some false)
  /\ (forall prompt_type,
        length (split (words 50)) = 50%nat /\
        indicator (words 50) prompt_type "appropriate_length" = Some true)
  /\ (forall prompt_type,
        length (split (words 500)) = 500%nat /\
        indicator (words 500) prompt_type "appropriate_length" = Some true)
  /\ (forall prompt_type,
        length (split (words 501)) = 501%nat /\
        indicator (words 501) prompt_type "appropriate_length" = Some false).
Proof.
  split.
  { intros prompt ty n. rewrite appropriate_length_indicator. fold n.
    f_equal. case_bool_decide; lia. }
  repeat apply conj; intros ty;
    (split; [vm_compute; reflexivity
            | rewrite appropriate_length_indicator; vm_compute; reflexivity]).
Qed.

(** C9.  On the empty text the scorer returns a report for every prompt
    type: no word, every indicator false, score 0. *)
Theorem empty_text_report (prompt_type : string) :
  exists r,
    analyze_prompt_quality EmptyString prompt_type = Ok r /\
    word_count r = 0 /\
    Forall (fun kv : string * bool => snd kv = false) (indicators r) /\
    quality_score r = 0%float.
Proof.
  eexists. split; [apply analyze_ok|].
  cbn [word_count quality_score indicators].
  split; [reflexivity|].
  rewrite type_indicators_app.
  type_cases EmptyString prompt_type; rewrite E;
    unfold type_indicators in E; rewrite ?E1, ?E2, ?E3 in E;
    try (injection E as <-);
    (split; [repeat constructor | vm_compute; reflexivity]).
Qed.

(** C4, as the claim words it, fails: on the empty text of type text all
    seven indicators are false and none of them is type-specific, yet the
    report carries four advisories. *)
Lemma false_indicators_without_advisory :
  exists r,
    analyze_prompt_quality EmptyString "text" = Ok r /\
    count_false (indicators r) = 7%nat /\
    dict_get "tone_appropriate" (indicators r) = Some false /\
    length (recommendations r) = 4%nat.
Proof. eexists. split; [vm_compute; reflexivity|]. repeat split. Qed.

(** C4, amended.  The recommendations are the advisories of a fixed rule
    table read in its order: one advisory for each false indicator among
    specificity, structure and constraints, for a false examples when the
    type is text, code or data, for a false visual_elements when it is
    image, and for a false temporal_elements when it is video; the other
    indicators have no rule.  The list does not depend on the order in
    which the indicators were inserted. *)
Theorem recommendations_follow_rule_table (prompt prompt_type : string) :
  exists r,
    analyze_prompt_quality prompt prompt_type = Ok r /\
    recommendations r = advisories (indicators r) prompt_type /\
    forall quality_indicators,
      quality_indicators ≡ₚ indicators r ->
      generate_recommendations quality_indicators prompt_type
      = Ok (recommendations r).
Proof.
  eexists. split; [apply analyze_ok|].
  cbn [recommendations indicators]. split; [reflexivity|].
  intros ind' Hp. rewrite <- recommendations_ok.
  apply generate_recommendations_ext. intros k.
  symmetry. apply dict_get_perm; [apply indicators_nodup|].
  symmetry. exact Hp.
Qed.

Lemma recommendations_follow_rule_table_witness :
  generate_recommendations
    [("appropriate_length", false); ("has_objective", false);
     ("tone_appropriate", false); ("examples", false);
     ("constraints", false); ("structure", false); ("specificity", false)]
    "text"
  = Ok ["Add more specific details and concrete requirements";
        "Consider adding a clear structure or format specification";
        "Define constraints or limitations to guide the AI";
        "Include examples to clarify expected output"].
Proof.
  destruct (recommendations_follow_rule_table EmptyString "text")
    as (r & Hr & Hrec & Hperm).
  assert (Hr' : r = {| quality_score := 0%float;
                       indicators := base_indicators EmptyString 0;
                       word_count := 0;
                       recommendations :=
                         advisories (base_indicators EmptyString 0) "text" |}).
  { vm_compute in Hr. injection Hr as <-. vm_compute. reflexivity. }
  subst r. cbn [recommendations indicators] in Hperm.
  rewrite (Hperm _); [reflexivity|].
  change (reverse (base_indicators EmptyString 0)
          ≡ₚ base_indicators EmptyString 0).
  apply reverse_Permutation.
Defined.

(** ** The fallback template *)

Lemma generate_fallback_prompt_ok user_input prompt_type :
  generate_fallback_prompt user_input prompt_type
  = Ok (fallback_header user_input prompt_type
        +:+ default (default EmptyString (dict_get "text" templates))
              (dict_get prompt_type templates)).
Proof. reflexivity. Qed.

(** C10.  The fallback generator returns for every type string.  Its
    result begins with the header naming the upper-cased type and the user
    input, and for a type other than text, image, video and code (audio,
    data, anything else) the header is followed by the text template. *)
Theorem fallback_prompt_total (user_input prompt_type : string) :
  exists text_body,
    dict_get "text" templates = Some text_body /\
    (exists body,
        generate_fallback_prompt user_input prompt_type
        = Ok (("Professional " +:+ upper prompt_type +:+ " Prompt for: "
               +:+ user_input +:+ nl +:+ nl) +:+ body)) /\
    (prompt_type ∉ ["text"; "image"; "video"; "code"] ->
     generate_fallback_prompt user_input prompt_type
     = Ok (("Professional " +:+ upper prompt_type +:+ " Prompt for: "
            +:+ user_input +:+ nl +:+ nl) +:+ text_body)).
Proof.
  exists (default EmptyString (dict_get "text" templates)).
  rewrite generate_fallback_prompt_ok. unfold fallback_header.
  split; [reflexivity|]. split; [eexists; reflexivity|].
  intros Hout. do 2 f_equal.
  generalize (default EmptyString (dict_get "text" templates)). intros body.
  unfold templates. cbn [dict_get]. unfold str_eqb.
  repeat match goal with
         | |- context [String.eqb prompt_type ?s] =>
             destruct (String.eqb_spec prompt_type s) as [->|];
             [exfalso; apply Hout; set_solver|]
         end.
  reflexivity.
Qed.

Lemma fallback_prompt_total_witness :
  exists text_body,
    dict_get "text" templates = Some text_body /\
    generate_fallback_prompt "a logo" "audio"
    = Ok (("Professional AUDIO Prompt for: a logo" +:+ nl +:+ nl)
          +:+ text_body).
Proof.
  destruct (fallback_prompt_total "a logo" "audio") as (b & Hb & _ & H).
  exists b. split; [exact Hb|].
  rewrite H; [reflexivity|].
  apply (bool_decide_unpack _). vm_compute. exact I.
Defined.

(** ** Dates *)

Lemma digit_inj a b : digit a = digit b -> a mod 10 = b mod 10.
Proof.
  unfold digit. intros H. apply (f_equal code) in H.
  pose proof (Z.mod_pos_bound a 10 ltac:(lia)).
  pose proof (Z.mod_pos_bound b 10 ltac:(lia)).
  rewrite !code_chr in H by lia. lia.
Qed.

Lemma pad2_inj a b :
  0 <= a < 100 -> 0 <= b < 100 -> pad2 a = pad2 b -> a = b.
Proof.
  intros Ha Hb H. unfold pad2 in H. injection H as H1 H0.
  apply digit_inj in H1, H0. Z.to_euclidean_division_equations. lia.
Qed.

Lemma pad4_inj a b :
  0 <= a < 10000 -> 0 <= b < 10000 -> pad4 a = pad4 b -> a = b.
Proof.
  intros Ha Hb H. unfold pad4, pad2 in H. injection H as H3 H2 H1 H0.
  apply digit_inj in H3, H2, H1, H0.
  Z.to_euclidean_division_equations. lia.
Qed.

Lemma days_in_month_le y m : days_in_month y m <= 31.
Proof.
  unfold days_in_month.
  repeat match goal with |- context [if ?c then _ else _] => destruct c end;
    lia.
Qed.

Lemma valid_date_bounds d :
  valid_date d = true ->
  0 <= year d < 10000 /\ 0 <= month d < 100 /\ 0 <= day d < 100.
Proof.
  unfold valid_date. intros H.
  pose proof (days_in_month_le (year d) (month d)).
  repeat (apply andb_prop in H as [H ?]). lia.
Qed.

(** Two dates with the same ISO text are the same date. *)
Lemma isoformat_inj a b :
  valid_date a = true -> valid_date b = true ->
  isoformat a = isoformat b -> a = b.
Proof.
  intros Ha Hb H.
  apply valid_date_bounds in Ha as (Hy & Hm & Hd).
  apply valid_date_bounds in Hb as (Hy' & Hm' & Hd').
  destruct a as [y m d], b as [y' m' d']. cbn [year month day] in *.
  unfold isoformat in H. cbn [year month day] in H.
  assert (pad4 y = pad4 y' /\ pad2 m = pad2 m' /\ pad2 d = pad2 d')
    as (E1 & E2 & E3).
  { unfold pad4, pad2 in *. cbn in H.
    injection H as ? ? ? ? ? ? ? ?. repeat split; congruence. }
  apply pad4_inj in E1; [|lia..]. apply pad2_inj in E2; [|lia..].
  apply pad2_inj in E3; [|lia..]. congruence.
Qed.

Lemma date_ltb_irrefl a : date_ltb a a = false.
Proof.
  unfold date_ltb. rewrite !Z.ltb_irrefl, !Z.eqb_refl. reflexivity.
Qed.

Lemma earlier_date_other_text a b :
  valid_date a = true -> valid_date b = true -> date_ltb a b = true ->
  isoformat a <> isoformat b.
Proof.
  intros Ha Hb Hlt E. apply isoformat_inj in E; [|assumption..].
  subst b. rewrite date_ltb_irrefl in Hlt. discriminate.
Qed.

Example isoformat_demo :
  isoformat day1 = "2024-01-01"
  /\ isoformat {| year := 987; month := 12; day := 31 |} = "0987-12-31".
Proof. split; reflexivity. Qed.

(** ** The daily reset *)

Lemma apply_rollover_same today (d : doc) :
  d !! "last_reset_date" = Some (VStr today) -> apply_rollover today d = d.
Proof.
  intros H. unfold apply_rollover. rewrite bool_decide_eq_true_2; done.
Qed.

Lemma apply_rollover_date today (d : doc) :
  apply_rollover today d !! "last_reset_date" = Some (VStr today).
Proof.
  unfold apply_rollover. case_bool_decide; [assumption|].
  apply lookup_insert_eq.
Qed.

Lemma apply_rollover_reset today (d : doc) :
  d !! "last_reset_date" <> Some (VStr today) ->
  apply_rollover today d !! "prompts_today" = Some (VInt 0).
Proof.
  intros H. unfold apply_rollover. rewrite bool_decide_eq_false_2 by done.
  rewrite lookup_insert_ne by done. apply lookup_insert_eq.
Qed.

(** C8.  The daily reset applied twice for the same day is the reset
    applied once, and applied for any day after the one the counter was
    last reset on, however many days later, it leaves [prompts_today] at 0
    (and [last_reset_date] at that day). *)
Theorem rollover_idempotent :
  (forall (today : string) (counter : doc),
      apply_rollover today (apply_rollover today counter)
      = apply_rollover today counter)
  /\ (forall (window_start today : date) (counter : doc),
        valid_date window_start = true -> valid_date today = true ->
        date_ltb window_start today = true ->
        counter !! "last_reset_date" = Some (VStr (isoformat window_start)) ->
        apply_rollover (isoformat today) counter !! "prompts_today"
        = Some (VInt 0)
        /\ apply_rollover (isoformat today) counter !! "last_reset_date"
           = Some (VStr (isoformat today))).
Proof.
  split.
  - intros today d. apply apply_rollover_same, apply_rollover_date.
  - intros ws today d Hws Htoday Hlt Hd. split.
    + apply apply_rollover_reset. rewrite Hd. intros E.
      apply (earlier_date_other_text _ _ Hws Htoday Hlt). congruence.
    + apply apply_rollover_date.
Qed.

Lemma rollover_idempotent_witness :
  apply_rollover (isoformat day2) (apply_rollover (isoformat day2) spent_doc)
  = apply_rollover (isoformat day2) spent_doc
  /\ apply_rollover (isoformat day2) spent_doc !! "prompts_today"
     = Some (VInt 0).
Proof.
  destruct rollover_idempotent as [Hsame Hreset]. split.
  - apply Hsame.
  - apply (Hreset day1 day2 spent_doc); reflexivity.
Defined.

(** ** The rate limit *)

(** The check reads neither the clock nor [last_reset_date]. *)
Lemma check_rate_limit_clock w e e' user :
  check_get_raises e = check_get_raises e' ->
  check_rate_limit w e user = check_rate_limit w e' user.
Proof. intros H. unfold check_rate_limit. rewrite H. reflexivity. Qed.

Lemma check_rate_limit_stale w e user_id (d : doc) limit :
  firebase_ready w = true -> check_get_raises e = None ->
  users w !! user_id = Some d ->
  d !! "daily_limit" = Some (VInt limit) ->
  d !! "prompts_today" = Some (VInt limit) ->
  check_rate_limit w e (Some user_id)
  = Ok (Some {| status := 429;
                payload := LimitBody "Daily limit reached"
                             (VInt limit) (VInt limit) |}).
Proof.
  intros Hr He Hd Hl Hp. unfold check_rate_limit.
  rewrite Hr, He, Hd, Hl, Hp. cbn. rewrite Z.leb_refl. reflexivity.
Qed.

(** C2.  The handler at the input of the claim: the counter was last reset
    on [day1], it stands at the daily limit, and the request comes on
    [day2].  The reset of [update_prompt_usage_stats] would put the count
    at 0, but the check compares the stored count and answers 429 with
    [used] 100. *)
Theorem check_skips_rollover :
  date_ltb day1 day2 = true
  /\ spent_doc !! "last_reset_date" = Some (VStr (isoformat day1))
  /\ spent_doc !! "prompts_today" = spent_doc !! "daily_limit"
  /\ apply_rollover (isoformat (now_date (now calm))) spent_doc
       !! "prompts_today" = Some (VInt 0)
  /\ generate (world_of true spent_doc) calm signed_in
     = (Ok {| status := 429;
              payload := LimitBody "Daily limit reached"
                           (VInt 100) (VInt 100) |},
        world_of true spent_doc).
Proof. repeat split; vm_compute; reflexivity. Qed.

(** The first scenario of the specification: with a limit of one, the
    first request of the day is served and counted, the second is refused
    with [limit] 1 and [used] 1. *)
Example daily_limit_scenario :
  exists resp w',
    generate (world_of true single_doc) calm signed_in = (Ok resp, w')
    /\ status resp = 200
    /\ stored_count (users w') "u1" = Some (VInt 1)
    /\ generate w' calm signed_in
       = (Ok {| status := 429;
                payload := LimitBody "Daily limit reached" (VInt 1) (VInt 1) |},
          w').
Proof.
  eexists. eexists. split; [vm_compute; reflexivity|].
  repeat split; vm_compute; reflexivity.
Qed.

(** C3, as the claim words it, fails: when the store is initialised and
    reading the user's document raises, nothing catches the exception; the
    request is not served although the model would have answered. *)
Lemma failed_read_is_not_fail_open :
  check_get_raises store_down = Some (ExternalError "503 unavailable")
  /\ model_text store_down = model_text calm
  /\ generate (world_of true fresh_doc) store_down signed_in
     = (Raise (ExternalError "503 unavailable"), world_of true fresh_doc).
Proof. repeat split; vm_compute; reflexivity. Qed.

(** C3, amended.  For an authenticated request, when the store is not
    initialised, or when it is read without error and holds no document
    for the user, the rate limit lets the request through: the handler goes
    on to the generation exactly as if the user were under the limit. *)
Theorem fail_open_without_record (w : world) (e : env) (r : request)
    (user_id : string) :
  req_user r = Some user_id ->
  firebase_ready w = false
  \/ (check_get_raises e = None /\ users w !! user_id = None) ->
  check_rate_limit w e (req_user r) = Ok None
  /\ (is_empty (strip (default EmptyString (req_prompt r))) = false ->
      generate w e r
      = try_enhance w e (req_user r)
          (strip (default EmptyString (req_prompt r)))
          (lower (default "text" (req_type r)))
          (default "detailed" (req_complexity r))).
Proof.
  intros Hu Hdown.
  assert (Hc : check_rate_limit w e (req_user r) = Ok None).
  { rewrite Hu. unfold check_rate_limit.
    destruct Hdown as [-> | [-> ->]]; [reflexivity|].
    destruct (firebase_ready w); reflexivity. }
  split; [exact Hc|].
  intros Hin. unfold generate. rewrite Hin, Hc. reflexivity.
Qed.

Lemma fail_open_without_record_witness :
  check_rate_limit (world_of false spent_doc) calm (Some "u1") = Ok None
  /\ exists resp w',
       generate (world_of false spent_doc) calm signed_in = (Ok resp, w')
       /\ status resp = 200.
Proof.
  destruct (fail_open_without_record (world_of false spent_doc) calm
              signed_in "u1") as [Hc Hg];
    [reflexivity | left; reflexivity |].
  split; [exact Hc|].
  rewrite Hg by reflexivity. eexists. eexists.
  split; [vm_compute; reflexivity | reflexivity].
Defined.

(** ** Generation failure *)

(** C5, as the claim words it, fails: the answer to a failed generation
    has status 500, not a success status, and its body is the error with
    the fallback, not the body of a success. *)
Lemma fallback_answer_is_an_error_status :
  exists resp fallback,
    generate (world_of true fresh_doc) model_down signed_in
    = (Ok resp, world_of true fresh_doc)
    /\ payload resp = FallbackBody (ExternalError "quota exceeded") fallback
    /\ status resp = 500
    /\ ~ (200 <= status resp < 300).
Proof.
  eexists. eexists. split; [vm_compute; reflexivity|].
  split; [reflexivity|]. split; [reflexivity|]. cbn. lia.
Qed.

(** C5, amended.  When the rate limit lets a request through and the model
    call raises, the handler answers with status 500, the text of the
    exception and the fallback prompt of the type, and leaves the store as
    it was: no counter moves and no prompt is saved. *)
Theorem generation_failure_fallback (w : world) (e : env) (r : request)
    (x : exn) :
  let user_input := strip (default EmptyString (req_prompt r)) in
  let prompt_type := lower (default "text" (req_type r)) in
  let complexity := default "detailed" (req_complexity r) in
  is_empty user_input = false ->
  check_rate_limit w e (req_user r) = Ok None ->
  model_text e (full_input user_input prompt_type complexity) = Raise x ->
  exists fallback,
    generate_fallback_prompt user_input prompt_type = Ok fallback
    /\ generate w e r
       = (Ok {| status := 500; payload := FallbackBody x fallback |}, w).
Proof.
  intros user_input prompt_type complexity Hin Hc Hm.
  pose proof (generate_fallback_prompt_ok user_input prompt_type) as Hf.
  eexists. split; [exact Hf|].
  unfold generate. fold user_input prompt_type complexity.
  rewrite Hin, Hc. unfold try_enhance, enhance. rewrite Hm. cbn [bind].
  rewrite Hf. reflexivity.
Qed.

Lemma generation_failure_fallback_witness :
  exists fallback,
    generate (world_of true fresh_doc) model_down signed_in
    = (Ok {| status := 500;
             payload := FallbackBody (ExternalError "quota exceeded") fallback |},
       world_of true fresh_doc).
Proof.
  destruct (generation_failure_fallback (world_of true fresh_doc) model_down
              signed_in (ExternalError "quota exceeded"))
    as (fallback & _ & H); [reflexivity..|].
  exists fallback. exact H.
Defined.

(** ** Concurrent updates of one counter *)

Section Schedules.

Context (user_id : string) (now : clock).

Local Abbreviation today := (isoformat (now_date now)).

Lemma counted_starts_at c d : counted today c d -> starts_at today c (Some d).
Proof.
  intros (Hdate & Hcount & t & Htotal). split.
  - cbn [window_count]. rewrite bool_decide_eq_true_2 by assumption.
    rewrite Hcount. reflexivity.
  - unfold total_is_int. cbn. rewrite Htotal. exact I.
Qed.

(** Lines 161-164 on a dictionary that has gone through the reset. *)
Lemma bump_counted (current_data : doc) c t :
  current_data !! "last_reset_date" = Some (VStr today) ->
  default (VInt 0) (current_data !! "prompts_today") = VInt c ->
  default (VInt 0) (current_data !! "total_prompts") = VInt t ->
  exists d',
    (total <- get_plus_one current_data "total_prompts" ;;
     let current_data := <["total_prompts" := total]> current_data in
     count <- get_plus_one current_data "prompts_today" ;;
     let current_data := <["prompts_today" := count]> current_data in
     Ok (<["updated_at" := VTime (now_stamp now)]> current_data)) = Ok d'
    /\ forall stored, counted today (c + 1) (d' ∪ stored).
Proof.
  intros Hdate Hcount Htotal. unfold get_plus_one.
  rewrite Htotal. cbn [bind]. rewrite lookup_insert_ne by done.
  rewrite Hcount. cbn [bind].
  eexists. split; [reflexivity|].
  intros stored. repeat split.
  - erewrite lookup_union_Some_l; [reflexivity|].
    rewrite !lookup_insert_ne by done. exact Hdate.
  - erewrite lookup_union_Some_l; [reflexivity|].
    rewrite lookup_insert_ne by done. apply lookup_insert_eq.
  - exists (t + 1). erewrite lookup_union_Some_l; [reflexivity|].
    do 2 (rewrite lookup_insert_ne by done). apply lookup_insert_eq.
Qed.

(** One update: the dictionary handed to [user_ref.set] carries the count
    the task started from plus one, whatever is stored by then. *)
Lemma updated_stats_counted read c :
  starts_at today c read ->
  exists d',
    updated_stats now read = Ok d'
    /\ forall stored, counted today (c + 1) (d' ∪ stored).
Proof.
  intros [Hw Ht]. unfold updated_stats.
  destruct read as [d|]; cbn [window_count] in Hw.
  - unfold total_is_int in Ht. cbn in Ht.
    assert (exists t, default (VInt 0) (d !! "total_prompts") = VInt t)
      as [t Htotal].
    { destruct (d !! "total_prompts") as [[]|]; try contradiction;
        cbn; eauto. }
    case_bool_decide as Hdate.
    + rewrite apply_rollover_same by assumption.
      apply (bump_counted d c t); [assumption| |assumption].
      destruct (d !! "prompts_today") as [[]|]; cbn; congruence.
    + injection Hw as <-. apply (bump_counted _ 0 t).
      * apply apply_rollover_date.
      * rewrite apply_rollover_reset by assumption. reflexivity.
      * unfold apply_rollover. rewrite bool_decide_eq_false_2 by assumption.
        rewrite !lookup_insert_ne by done. exact Htotal.
  - injection Hw as <-. rewrite apply_rollover_same.
    + apply (bump_counted _ 0 0).
      * do 2 (rewrite lookup_insert_ne by done). apply lookup_insert_eq.
      * rewrite lookup_insert_ne by done. rewrite lookup_insert_eq.
        reflexivity.
      * rewrite lookup_insert_eq. reflexivity.
    + do 2 (rewrite lookup_insert_ne by done). apply lookup_insert_eq.
Qed.

Lemma lookup_after_finished (n : nat) (t : task) (rest : list task) :
  (replicate n Finished ++ t :: rest) !! n = Some t.
Proof. apply list_lookup_middle. symmetry. apply length_replicate. Qed.

Lemma insert_after_finished (n : nat) (t t' : task) (rest : list task) :
  <[n := t']> (replicate n Finished ++ t :: rest)
  = replicate n Finished ++ t' :: rest.
Proof.
  rewrite insert_app_r_alt by (rewrite length_replicate; lia).
  rewrite length_replicate, Nat.sub_diag. reflexivity.
Qed.

Lemma step_read users (n : nat) rest :
  step user_id now
    {| store := users; tasks := replicate n Finished ++ Idle :: rest |} n
  = {| store := users;
       tasks := replicate n Finished ++ Loaded (users !! user_id) :: rest |}.
Proof.
  unfold step. cbn [tasks store]. rewrite lookup_after_finished.
  rewrite insert_after_finished. reflexivity.
Qed.

Lemma step_write users (n : nat) read data rest :
  updated_stats now read = Ok data ->
  step user_id now
    {| store := users; tasks := replicate n Finished ++ Loaded read :: rest |}
    n
  = {| store := set_merge user_id data users;
       tasks := replicate (S n) Finished ++ rest |}.
Proof.
  intros H. unfold step. cbn [tasks store]. rewrite lookup_after_finished.
  rewrite insert_after_finished, H.
  rewrite replicate_S_end, <- app_assoc. reflexivity.
Qed.

(** Updates that run one after the other each add one. *)
Lemma run_sequential n :
  forall finished users c,
    starts_at today c (users !! user_id) ->
    exists users',
      run user_id now
        {| store := users;
           tasks := replicate finished Finished ++ replicate n Idle |}
        (sequential finished n)
      = {| store := users'; tasks := replicate (finished + n) Finished |}
      /\ starts_at today (c + Z.of_nat n) (users' !! user_id)
      /\ ((0 < n)%nat ->
          exists d', users' !! user_id = Some d'
                     /\ counted today (c + Z.of_nat n) d').
Proof.
  induction n as [|n IH]; intros finished users c Hc.
  - exists users. cbn [sequential run fold_left replicate].
    rewrite app_nil_r, Nat.add_0_r, Z.add_0_r.
    split; [reflexivity|]. split; [assumption|]. lia.
  - destruct (updated_stats_counted _ c Hc) as (d1 & Hup & Hc1).
    pose (users1 := set_merge user_id d1 users).
    assert (H1 : users1 !! user_id = Some (d1 ∪ default ∅ (users !! user_id)))
      by apply lookup_insert_eq.
    destruct (IH (S finished) users1 (c + 1)) as (users' & Hrun & Hs & Hd').
    { rewrite H1. apply counted_starts_at, Hc1. }
    replace (c + Z.of_nat (S n)) with (c + 1 + Z.of_nat n) by lia.
    exists users'. split; [|split; [exact Hs|]].
    + unfold run in *. cbn [sequential fold_left]. rewrite replicate_S.
      rewrite step_read. rewrite (step_write _ _ _ d1) by exact Hup.
      fold users1. rewrite Hrun. f_equal. f_equal. lia.
    + intros _. destruct n as [|n]; [|apply Hd'; lia].
      cbn [sequential run fold_left] in Hrun. injection Hrun as <- _.
      rewrite Z.add_0_r. eexists. split; [exact H1|apply Hc1].
Qed.

Lemma finished_count_replicate n :
  finished_count (replicate n Finished) = Z.of_nat n.
Proof.
  induction n as [|n IH]; [reflexivity|].
  cbn [replicate finished_count]. lia.
Qed.

Lemma finished_count_insert l i t t' :
  l !! i = Some t ->
  finished_count (<[i := t']> l)
  = finished_count l - finished_count [t] + finished_count [t'].
Proof.
  revert i. induction l as [|a l IH]; intros [|i] H; try discriminate.
  - cbn in H. injection H as ->. cbn [insert list_insert].
    destruct t, t'; cbn; lia.
  - cbn in H. apply IH in H.
    change (<[S i := t']> (a :: l)) with (a :: <[i := t']> l).
    destruct a; cbn [finished_count] in *; lia.
Qed.

Lemma step_preserves_inv c s i :
  reachable_inv user_id today c s ->
  reachable_inv user_id today c (step user_id now s i).
Proof.
  intros [(k & Hk & Hb & Hpos) Hloaded]. unfold step.
  destruct (tasks s !! i) as [[|read|]|] eqn:Hi;
    try (split; [exists k|]; auto; fail).
  - (* the task reads the counter *)
    assert (Hf : finished_count (<[i:=Loaded (store s !! user_id)]> (tasks s))
                 = finished_count (tasks s)).
    { rewrite (finished_count_insert _ _ _ _ Hi). cbn. lia. }
    split; cbn [tasks store]; rewrite Hf.
    + exists k. auto.
    + intros i' read' Hi'.
      destruct (decide (i = i')) as [<-|Hne].
      * rewrite list_lookup_insert_eq in Hi' by (eapply lookup_lt_Some; eauto).
        injection Hi' as <-. exists k. auto.
      * rewrite list_lookup_insert_ne in Hi' by assumption. eauto.
  - (* the task writes what it computed from its reading *)
    assert (Hf : finished_count (<[i:=Finished]> (tasks s))
                 = finished_count (tasks s) + 1).
    { rewrite (finished_count_insert _ _ _ _ Hi). cbn. lia. }
    destruct (Hloaded i read Hi) as (j & Hj & Hjb).
    destruct (updated_stats_counted read j Hj) as (d1 & Hup & Hc1).
    rewrite Hup. split; cbn [tasks store]; rewrite Hf.
    + exists (j + 1). unfold set_merge. rewrite lookup_insert_eq.
      split; [apply counted_starts_at, Hc1|]. split; [lia|].
      intros _. split; [lia|]. eexists. split; [reflexivity|apply Hc1].
    + intros i' read' Hi'.
      destruct (decide (i = i')) as [<-|Hne].
      * rewrite list_lookup_insert_eq in Hi' by (eapply lookup_lt_Some; eauto).
        discriminate.
      * rewrite list_lookup_insert_ne in Hi' by assumption.
        destruct (Hloaded i' read' Hi') as (j' & ? & ?).
        exists j'. split; [assumption|]. lia.
Qed.

Lemma run_preserves_inv c schedule :
  forall s,
    reachable_inv user_id today c s ->
    reachable_inv user_id today c (run user_id now s schedule).
Proof.
  induction schedule as [|i schedule IH]; intros s H; [exact H|].
  apply IH, step_preserves_inv, H.
Qed.

Lemma start_inv c users n :
  starts_at today c (users !! user_id) ->
  reachable_inv user_id today c (start users n).
Proof.
  intros Hc. unfold reachable_inv, start. cbn [tasks store].
  assert (Hz : finished_count (replicate n Idle) = 0)
    by (induction n; [reflexivity | assumption]).
  rewrite Hz. split.
  - exists c. split; [assumption|]. lia.
  - intros i read Hi. apply lookup_replicate in Hi as [? _]. discriminate.
Qed.

(** Whatever the interleaving, once all [n] updates have written the
    counter has moved by at least one and at most [n]. *)
Lemma interleaved_updates_bounds users c n schedule :
  starts_at today c (users !! user_id) ->
  (0 < n)%nat ->
  tasks (run user_id now (start users n) schedule) = replicate n Finished ->
  exists k,
    stored_count (store (run user_id now (start users n) schedule)) user_id
    = Some (VInt k)
    /\ c + 1 <= k <= c + Z.of_nat n.
Proof.
  intros Hc Hn Hdone.
  destruct (run_preserves_inv c schedule _ (start_inv c users n Hc))
    as [(k & _ & Hb & Hpos) _].
  rewrite Hdone, finished_count_replicate in Hb, Hpos.
  destruct Hpos as (Hk1 & dk & Hs & _ & Hk & _); [lia|].
  exists k. split; [|lia].
  unfold stored_count. rewrite Hs. exact Hk.
Qed.

End Schedules.

(** C1, as the claim words it, fails: two updates of one user that both
    read the counter before either writes leave it at 1, not at 2. *)
Lemma interleaved_updates_lose_one :
  let users := users (world_of true fresh_doc) in
  let final := run "u1" (now calm) (start users 2) [0; 1; 0; 1]%nat in
  stored_count users "u1" = Some (VInt 0)
  /\ tasks final = [Finished; Finished]
  /\ stored_count (store final) "u1" = Some (VInt 1).
Proof. repeat split; vm_compute; reflexivity. Qed.

(** C1, amended.  Let [c] be the count today's window of a user starts
    from (the stored [prompts_today], or 0 when the document is missing or
    was last reset on another day).  Then [n] updates that run one after
    the other, each writing before the next reads, leave [prompts_today]
    at [c + n].  The update is a plain read followed by a write, so under
    another interleaving updates can be lost: once all [n] have written,
    the count is at least [c + 1] and at most [c + n]. *)
Theorem usage_updates_counted (user_id : string) (now : clock)
    (users : gmap string doc) (c : Z) (n : nat) :
  window_count (isoformat (now_date now)) (users !! user_id) = Some c ->
  total_is_int (users !! user_id) ->
  (0 < n)%nat ->
  (let final := run user_id now (start users n) (sequential 0 n) in
   tasks final = replicate n Finished
   /\ stored_count (store final) user_id = Some (VInt (c + Z.of_nat n)))
  /\ (forall schedule,
         let final := run user_id now (start users n) schedule in
         tasks final = replicate n Finished ->
         exists k,
           stored_count (store final) user_id = Some (VInt k)
           /\ c + 1 <= k <= c + Z.of_nat n).
Proof.
  intros Hw Ht Hn.
  assert (Hc : starts_at (isoformat (now_date now)) c (users !! user_id))
    by (split; assumption).
  split.
  - destruct (run_sequential user_id now n 0 users c Hc) as
      (users' & Hrun & _ & Hd').
    destruct (Hd' Hn) as (d' & Hd & _ & Hcount & _).
    unfold start. cbn [replicate app] in Hrun. cbv zeta. rewrite Hrun.
    cbn [tasks store]. split; [reflexivity|].
    unfold stored_count. rewrite Hd. exact Hcount.
  - intros schedule final Hdone.
    exact (interleaved_updates_bounds user_id now users c n schedule
             Hc Hn Hdone).
Qed.

Lemma usage_updates_counted_witness :
  stored_count
    (store (run "u1" (now calm) (start (users (world_of true fresh_doc)) 3)
              (sequential 0 3))) "u1"
  = Some (VInt 3)
  /\ stored_count
       (store (run "u1" (now calm) (start (users (world_of true spent_doc)) 3)
                 (sequential 0 3))) "u1"
     = Some (VInt 3).
Proof.
  split.
  - destruct (usage_updates_counted "u1" (now calm)
                (users (world_of true fresh_doc)) 0 3) as [[_ H] _];
      [reflexivity | exact I | lia | exact H].
  - destruct (usage_updates_counted "u1" (now calm)
                (users (world_of true spent_doc)) 0 3) as [[_ H] _];
      [reflexivity | exact I | lia | exact H].
Defined.

(** * Further properties *)

(** ** Letter case *)

Lemma isspace_lower_char c : isspace (lower_char c) = isspace c.
Proof. destruct c as [[] [] [] [] [] [] [] []]; vm_compute; reflexivity. Qed.

Lemma lower_char_idem c : lower_char (lower_char c) = lower_char c.
Proof. destruct c as [[] [] [] [] [] [] [] []]; vm_compute; reflexivity. Qed.

Lemma lower_idem s : lower (lower s) = lower s.
Proof.
  induction s as [|c s IH]; [reflexivity|].
  cbn [lower]. rewrite lower_char_idem, IH. reflexivity.
Qed.

Lemma lower_app a b : lower (a +:+ b) = lower a +:+ lower b.
Proof.
  induction a as [|c a IH]; [reflexivity|].
  change (String (lower_char c) (lower (a +:+ b))
          = String (lower_char c) (lower a +:+ lower b)).
  rewrite IH. reflexivity.
Qed.

Lemma split_from_lower_length cur s :
  is_empty (lower cur) = is_empty cur ->
  length (split_from (lower cur) (lower s)) = length (split_from cur s).
Proof.
  revert cur. induction s as [|c s IH]; intros cur Hcur.
  - cbn [lower split_from]. rewrite Hcur. destruct (is_empty cur); reflexivity.
  - cbn [lower split_from]. rewrite isspace_lower_char, Hcur.
    destruct (isspace c).
    + destruct (is_empty cur); cbn [length]; rewrite <- (IH EmptyString);
        reflexivity.
    + apply (IH (String c cur)). reflexivity.
Qed.

Lemma split_lower_length s : length (split (lower s)) = length (split s).
Proof. apply (split_from_lower_length EmptyString). reflexivity. Qed.

(** X1.  The scorer does not see letter case: two texts that are equal
    once lower-cased get the same report, word count included. *)
Theorem scoring_ignores_case (prompt prompt' prompt_type : string) :
  lower prompt = lower prompt' ->
  analyze_prompt_quality prompt prompt_type
  = analyze_prompt_quality prompt' prompt_type.
Proof.
  intros H. rewrite !analyze_ok. cbv zeta.
  assert (Hn : length (split prompt) = length (split prompt')).
  { rewrite <- (split_lower_length prompt), <- (split_lower_length prompt').
    rewrite H. reflexivity. }
  rewrite Hn. unfold type_indicators, base_indicators. rewrite H.
  reflexivity.
Qed.

Lemma scoring_ignores_case_witness :
  analyze_prompt_quality "A Formal GOAL" "text"
  = analyze_prompt_quality "a formal goal" "text".
Proof. apply scoring_ignores_case. reflexivity. Defined.

(** ** Keywords *)

Lemma append_cons c s b : String c s +:+ b = String c (s +:+ b).
Proof. reflexivity. Qed.

Lemma startswith_app w s b :
  startswith w s = true -> startswith w (s +:+ b) = true.
Proof.
  revert s. induction w as [|x w IH]; intros [|y s] H;
    try reflexivity; try discriminate.
  rewrite append_cons. cbn [startswith] in *.
  destruct (Ascii.eqb x y); [auto|discriminate].
Qed.

Lemma contains_app_r w s b :
  contains w s = true -> contains w (s +:+ b) = true.
Proof.
  induction s as [|c s IH]; intros H.
  - cbn in H. rewrite orb_false_r in H.
    destruct w; [|discriminate]. destruct b; reflexivity.
  - cbn [contains] in H. apply orb_true_iff in H as [H|H].
    + change (String c s +:+ b) with (String c (s +:+ b)).
      cbn [contains]. apply orb_true_iff. left.
      apply (startswith_app w (String c s) b H).
    + change (String c s +:+ b) with (String c (s +:+ b)).
      cbn [contains]. apply orb_true_iff. right. auto.
Qed.

Lemma contains_app_l w a s :
  contains w s = true -> contains w (a +:+ s) = true.
Proof.
  intros H. induction a as [|c a IH]; [exact H|].
  change (String c a +:+ s) with (String c (a +:+ s)).
  cbn [contains]. apply orb_true_iff. right. exact IH.
Qed.

Lemma contains_around w a s b :
  contains w (lower s) = true ->
  contains w (lower (a +:+ s +:+ b)) = true.
Proof.
  intros H. rewrite !lower_app. apply contains_app_l, contains_app_r, H.
Qed.

Lemma any_in_around ws a s b :
  any_in ws (lower s) = true -> any_in ws (lower (a +:+ s +:+ b)) = true.
Proof.
  unfold any_in. rewrite !existsb_exists.
  intros (w & Hin & Hw). exists w. split; [exact Hin|].
  apply contains_around, Hw.
Qed.

(** X2.  Text added before or after a prompt never turns a keyword
    indicator off: an indicator of [keyword_indicators] that is true for a
    prompt stays true for the longer text. *)
Theorem keyword_indicators_monotone
    (before prompt after prompt_type name : string) :
  name ∈ keyword_indicators ->
  indicator prompt prompt_type name = Some true ->
  indicator (before +:+ prompt +:+ after) prompt_type name = Some true.
Proof.
  intros Hname. unfold indicator. rewrite !analyze_ok. cbn [indicators].
  rewrite !type_indicators_app. unfold base_indicators, type_indicators.
  pose proof (any_in_around) as Hany.
  pose proof (contains_around) as Hc.
  unfold keyword_indicators in Hname.
  repeat (apply elem_of_cons in Hname as [-> | Hname]);
    try (by apply elem_of_nil in Hname).
  all: destruct (str_eqb prompt_type "image") eqn:E1;
    [|destruct (str_eqb prompt_type "video") eqn:E2;
      [|destruct (str_eqb prompt_type "code") eqn:E3]];
    cbn -[any_in contains lower String.append]; try discriminate;
    intros [= H]; f_equal; auto.
  all: apply orb_true_iff in H as [H|H]; apply orb_true_iff; auto.
Qed.

Lemma keyword_indicators_monotone_witness :
  indicator ("Please " +:+ "use a formal tone" +:+ ", thanks.") "text"
    "tone_appropriate" = Some true.
Proof.
  apply keyword_indicators_monotone; [|reflexivity].
  apply (bool_decide_unpack _). vm_compute. exact I.
Defined.

(** ** Blank input *)

Lemma lstrip_blank s : blank s = true -> lstrip s = EmptyString.
Proof.
  induction s as [|c s IH]; [reflexivity|].
  cbn. destruct (isspace c); [auto|discriminate].
Qed.


Lemma count_true_false d :
  (count_true d + count_false d = length d)%nat.
Proof.
  unfold count_true, count_false.
  induction d as [|[k b] d IH]; [reflexivity|].
  rewrite !filter_cons. cbn [snd length].
  destruct b; repeat case_decide; try congruence; cbn [length]; lia.
Qed.

Lemma float_neq (x y : float) : Prim2SF x <> Prim2SF y -> x <> y.
Proof. intros H E. apply H. rewrite E. reflexivity. Qed.

Ltac float_iff :=
  split; intros E;
  [ first [lia | exfalso; revert E; apply float_neq; vm_compute; discriminate]
  | first [vm_compute; reflexivity | exfalso; lia] ].

(** The scores of all the pairs of counts the scorer can produce. *)
Lemma score_of_counts_range s m :
  (m = 7 \/ m = 8) -> 0 <= s <= m ->
  PrimFloat.leb 0 (score_of_counts s m) = true
  /\ PrimFloat.leb (score_of_counts s m) 100 = true
  /\ (score_of_counts s m = 100%float <-> s = m)
  /\ (score_of_counts s m = 0%float <-> s = 0)
  /\ (s <= m - 2 -> PrimFloat.leb (score_of_counts s m) 75 = true).
Proof.
  intros Hm Hs.
  assert (Hc : s = 0 \/ s = 1 \/ s = 2 \/ s = 3 \/ s = 4 \/ s = 5 \/ s = 6
               \/ s = 7 \/ s = 8) by lia.
  destruct Hm as [-> | ->];
    repeat (destruct Hc as [-> | Hc]); try subst s; try lia;
    (split; [vm_compute; reflexivity|]);
    (split; [vm_compute; reflexivity|]);
    (split; [float_iff|]); (split; [float_iff|]);
    intros Hle; first [vm_compute; reflexivity | exfalso; lia].
Qed.

(** The same facts on the indicators of a report. *)
Lemma report_score_facts prompt ty :
  let n := Z.of_nat (length (split prompt)) in
  let ind := type_indicators prompt ty (base_indicators prompt n) in
  let score := score_of_counts (sum_values ind) (Z.of_nat (length ind)) in
  PrimFloat.leb 0 score = true
  /\ PrimFloat.leb score 100 = true
  /\ (score = 100%float <-> count_false ind = 0%nat)
  /\ (score = 0%float <-> count_true ind = 0%nat)
  /\ ((count_true ind + 2 <= length ind)%nat ->
      PrimFloat.leb score 75 = true).
Proof.
  intros n ind score. subst score.
  pose proof (indicators_length prompt ty n) as Hlen. fold ind in Hlen.
  pose proof (sum_values_bounds ind) as Hsum.
  pose proof (count_true_false ind) as Hcount.
  destruct (score_of_counts_range (sum_values ind) (Z.of_nat (length ind)))
    as (H0 & H100 & Hfull & Hnone & Hcap).
  { destruct (_ || _) in Hlen; lia. }
  { lia. }
  rewrite sum_values_count in *.
  split; [exact H0|]. split; [exact H100|]. split; [|split].
  - rewrite Hfull. lia.
  - rewrite Hnone. lia.
  - intros H. apply Hcap. lia.
Qed.

(** X3.  The quality score lies between 0 and 100; it is 100 exactly when
    no indicator is false and 0 exactly when none is true. *)
Theorem quality_score_range (prompt prompt_type : string) :
  exists r,
    analyze_prompt_quality prompt prompt_type = Ok r
    /\ PrimFloat.leb 0 (quality_score r) = true
    /\ PrimFloat.leb (quality_score r) 100 = true
    /\ (quality_score r = 100%float <-> count_false (indicators r) = 0%nat)
    /\ (quality_score r = 0%float <-> count_true (indicators r) = 0%nat).
Proof.
  eexists. split; [apply analyze_ok|]. cbn [quality_score indicators].
  destruct (report_score_facts prompt prompt_type) as (H0 & H1 & H2 & H3 & _).
  auto.
Qed.

(** Every advisory answers a false indicator of its own. *)
Lemma advisories_bounded prompt ty n :
  let ind := type_indicators prompt ty (base_indicators prompt n) in
  (length (advisories ind ty) <= count_false ind)%nat
  /\ (length (advisories ind ty) <= 4)%nat.
Proof.
  cbv zeta. rewrite type_indicators_app.
  destruct (base_indicators_shape prompt n)
    as (b1 & b2 & b3 & b4 & b5 & b6 & b7 & ->).
  type_cases prompt ty; rewrite E.
  - apply str_eqb_true in E1. subst ty.
    destruct b1, b2, b3, b4, b5, b6, b7, b; vm_compute; lia.
  - apply str_eqb_true in E2. subst ty.
    destruct b1, b2, b3, b4, b5, b6, b7, b; vm_compute; lia.
  - apply str_eqb_true in E3. subst ty.
    destruct b1, b2, b3, b4, b5, b6, b7, b; vm_compute; lia.
  - unfold advisories, rule_table. cbn -[wants_examples].
    rewrite E1, E2.
    destruct b1, b2, b3, b4, b5, b6, b7, (wants_examples ty);
      vm_compute; lia.
Qed.

(** X4.  A report never carries more advisories than it has false
    indicators, nor more than four, and a score of 100 comes with no
    advisory at all. *)
Theorem recommendations_bounded (prompt prompt_type : string) :
  exists r,
    analyze_prompt_quality prompt prompt_type = Ok r
    /\ (length (recommendations r) <= count_false (indicators r))%nat
    /\ (length (recommendations r) <= 4)%nat
    /\ (quality_score r = 100%float -> recommendations r = []).
Proof.
  eexists. split; [apply analyze_ok|].
  cbn [recommendations indicators quality_score].
  destruct (report_score_facts prompt prompt_type) as (_ & _ & Hfull & _).
  destruct (advisories_bounded prompt prompt_type
              (Z.of_nat (length (split prompt)))) as [Hf H4].
  split; [exact Hf|]. split; [exact H4|].
  intros E. apply Hfull in E. rewrite E in Hf.
  destruct (advisories _ _); [reflexivity|cbn in Hf; lia].
Qed.

Lemma recommendations_bounded_witness :
  exists r,
    analyze_prompt_quality
      ("The objective of this formal template: you must give a specific "
       +:+ "example. " +:+ words 50) "text" = Ok r
    /\ quality_score r = 100%float
    /\ recommendations r = [].
Proof.
  destruct (recommendations_bounded
              ("The objective of this formal template: you must give a "
               +:+ "specific example. " +:+ words 50) "text")
    as (r & Hr & _ & _ & H).
  exists r. split; [exact Hr|].
  assert (Hs : quality_score r = 100%float).
  { vm_compute in Hr. injection Hr as <-. reflexivity. }
  split; [exact Hs | exact (H Hs)].
Defined.

Lemma count_true_short prompt ty n :
  n <= 20 ->
  let ind := type_indicators prompt ty (base_indicators prompt n) in
  dict_get "has_objective" ind = Some false
  /\ dict_get "appropriate_length" ind = Some false
  /\ (count_true ind + 2 <= length ind)%nat.
Proof.
  intros Hn. cbv zeta. rewrite type_indicators_app. unfold base_indicators.
  replace (20 <? n) with false by (symmetry; apply Z.ltb_ge; lia).
  replace (50 <=? n) with false by (symmetry; apply Z.leb_gt; lia).
  cbn [andb].
  split; [apply dict_get_app_l; reflexivity|].
  split; [apply dict_get_app_l; reflexivity|].
  unfold count_true. rewrite filter_app, length_app.
  assert (Hx : (length (filter (fun kv : string * bool => snd kv = true)
                          (type_indicators prompt ty []))
                <= length (type_indicators prompt ty []))%nat)
    by apply length_filter.
  rewrite length_app. cbn [length].
  repeat (rewrite filter_cons; cbn [snd]; case_decide).
  all: rewrite ?filter_nil; cbn [length]; try lia; congruence.
Qed.

(** X5.  For a text of at most 20 words [has_objective] and
    [appropriate_length] are both false, whatever its keywords, so its
    score is at most 75. *)
Theorem short_text_score_capped (prompt prompt_type : string) :
  (length (split prompt) <= 20)%nat ->
  exists r,
    analyze_prompt_quality prompt prompt_type = Ok r
    /\ dict_get "has_objective" (indicators r) = Some false
    /\ dict_get "appropriate_length" (indicators r) = Some false
    /\ PrimFloat.leb (quality_score r) 75 = true.
Proof.
  intros Hn. eexists. split; [apply analyze_ok|].
  cbn [indicators quality_score].
  destruct (count_true_short prompt prompt_type
              (Z.of_nat (length (split prompt)))) as (Ho & Hl & Hc); [lia|].
  destruct (report_score_facts prompt prompt_type) as (_ & _ & _ & _ & Hcap).
  auto.
Qed.

Lemma short_text_score_capped_witness :
  exists r,
    analyze_prompt_quality "the goal is a formal report" "text" = Ok r
    /\ dict_get "has_objective" (indicators r) = Some false
    /\ PrimFloat.leb (quality_score r) 75 = true.
Proof.
  destruct (short_text_score_capped "the goal is a formal report" "text")
    as (r & Hr & Ho & _ & Hs); [vm_compute; lia|].
  exists r. auto.
Defined.

(** ** The pieces of the handler *)

Lemma enhance_ok w e user user_input prompt_type complexity text :
  model_text e (full_input user_input prompt_type complexity) = Ok text ->
  exists quality_metrics,
    analyze_prompt_quality (strip text) prompt_type = Ok quality_metrics
    /\ let stored :=
         stored_after w e user user_input (strip text) prompt_type
           (metadata_of e prompt_type complexity quality_metrics) in
       enhance w e user user_input prompt_type complexity
       = Ok ({| status := 200;
                payload :=
                  SuccessBody (strip text) prompt_type complexity
                    quality_metrics
                    (Z.of_nat (length (split (strip text))))
                    (str_len (strip text)) (fst stored)
                    (bool_decide (is_Some user)) |},
             snd stored).
Proof.
  intros Hm. unfold enhance. rewrite Hm. cbn [bind].
  rewrite analyze_ok. cbn [bind]. eexists. split; [reflexivity|].
  cbv zeta. unfold stored_after, metadata_of. cbn [quality_score].
  destruct user as [user_id|]; [|reflexivity].
  destruct (save_prompt_to_firestore _ _ _ _ _ _ _) as [pid w1]. reflexivity.
Qed.

Lemma save_prompt_effect w e user_id original enhanced prompt_type meta :
  let saved :=
    save_prompt_to_firestore w e user_id original enhanced prompt_type meta in
  firebase_ready (snd saved) = firebase_ready w
  /\ users (snd saved) = users w
  /\ ((fst saved = None /\ snd saved = w)
      \/ (firebase_ready w = true /\ prompt_set_raises e = None
          /\ fst saved = Some (new_id e)
          /\ exists data,
               p_user_id data = user_id
               /\ p_original_prompt data = original
               /\ p_enhanced_prompt data = enhanced
               /\ prompts (snd saved) = prompts w ++ [(new_id e, data)])).
Proof.
  cbv zeta. unfold save_prompt_to_firestore.
  destruct (firebase_ready w) eqn:Hr; cbn [negb];
    [destruct (prompt_set_raises e) eqn:Hp|];
    cbn [fst snd firebase_ready users prompts];
    (split; [auto|]); (split; [reflexivity|]);
    try (left; split; reflexivity).
  right. repeat split. eexists. repeat split; reflexivity.
Qed.

Lemma update_stats_effect w e user_id :
  firebase_ready (update_prompt_usage_stats w e user_id) = firebase_ready w
  /\ prompts (update_prompt_usage_stats w e user_id) = prompts w
  /\ forall other, other <> user_id ->
       users (update_prompt_usage_stats w e user_id) !! other
       = users w !! other.
Proof.
  assert (Hsame : firebase_ready w = firebase_ready w
                  /\ prompts w = prompts w
                  /\ forall other, other <> user_id ->
                       users w !! other = users w !! other) by auto.
  unfold update_prompt_usage_stats.
  destruct (negb (firebase_ready w)); [exact Hsame|].
  destruct (attempt (stats_get_raises e)); cbn [bind]; [|exact Hsame].
  destruct (updated_stats _ _); cbn [bind]; [|exact Hsame].
  destruct (attempt (stats_set_raises e)); cbn [bind]; [|exact Hsame].
  cbn [firebase_ready prompts users]. split; [reflexivity|].
  split; [reflexivity|]. intros other Hne. unfold set_merge.
  apply lookup_insert_ne. congruence.
Qed.



(** ** Input validation *)



(** ** Guests *)



(** ** What a request leaves alone *)

Lemma stored_after_effect w e user user_input enhanced prompt_type meta :
  let stored := stored_after w e user user_input enhanced prompt_type meta in
  firebase_ready (snd stored) = firebase_ready w
  /\ (forall other, user <> Some other ->
        users (snd stored) !! other = users w !! other)
  /\ (prompts (snd stored) = prompts w
      \/ exists user_id data,
           user = Some user_id /\ p_user_id data = user_id
           /\ fst stored = Some (new_id e)
           /\ prompts (snd stored) = prompts w ++ [(new_id e, data)]).
Proof.
  cbv zeta. unfold stored_after. destruct user as [user_id|]; cbn [fst snd].
  - destruct (save_prompt_effect w e user_id user_input enhanced prompt_type
                meta) as (Hr & Hu & Hp). cbv zeta in *.
    destruct (update_stats_effect
                (snd (save_prompt_to_firestore w e user_id user_input enhanced
                        prompt_type meta)) e user_id) as (Hr' & Hp' & Hu').
    split; [congruence|]. split.
    + intros other Hne. rewrite Hu' by congruence. rewrite Hu. reflexivity.
    + rewrite Hp'. destruct Hp as [[_ ->] | (_ & _ & Hid & data & Hd & _ & _ & Hp)].
      * left. reflexivity.
      * right. exists user_id, data. auto.
  - auto.
Qed.

(** X8.  Whatever happens during a request, [generate] leaves the
    documents of all other users as they were, and the only change to the
    prompts is at most one prompt added at the end, owned by the caller. *)
Theorem generate_frame (w : world) (e : env) (r : request) :
  let w' := snd (generate w e r) in
  firebase_ready w' = firebase_ready w
  /\ (forall other, req_user r <> Some other ->
        users w' !! other = users w !! other)
  /\ (prompts w' = prompts w
      \/ exists user_id data,
           req_user r = Some user_id /\ p_user_id data = user_id
           /\ prompts w' = prompts w ++ [(new_id e, data)]).
Proof.
  cbv zeta. unfold generate.
  destruct (is_empty _); [cbn [snd]; auto|].
  destruct (check_rate_limit w e (req_user r)) as [[denied|]|x];
    [cbn [snd]; auto| |cbn [snd]; auto].
  unfold try_enhance.
  destruct (model_text e (full_input
              (strip (default EmptyString (req_prompt r)))
              (lower (default "text" (req_type r)))
              (default "detailed" (req_complexity r)))) as [text|x] eqn:Hm.
  - destruct (enhance_ok w e (req_user r) _ _ _ _ Hm) as (qm & _ & ->).
    cbn [snd].
    destruct (stored_after_effect w e (req_user r)
                (strip (default EmptyString (req_prompt r))) (strip text)
                (lower (default "text" (req_type r)))
                (metadata_of e (lower (default "text" (req_type r)))
                   (default "detailed" (req_complexity r)) qm))
      as (Hr & Hu & Hp). cbv zeta in *.
    split; [exact Hr|]. split; [exact Hu|].
    destruct Hp as [Hp | (uid & data & ? & ? & _ & Hp)]; [auto|].
    right. exists uid, data. auto.
  - unfold enhance. rewrite Hm. cbn [bind snd]. auto.
Qed.

(** ** One update of the usage counter *)

Lemma apply_rollover_other today (d : doc) k :
  k <> "last_reset_date" -> k <> "prompts_today" ->
  apply_rollover today d !! k = d !! k.
Proof.
  intros H1 H2. unfold apply_rollover. case_bool_decide; [reflexivity|].
  rewrite !lookup_insert_ne by congruence. reflexivity.
Qed.

Lemma updated_stats_fields now (d d1 : doc) :
  updated_stats now (Some d) = Ok d1 ->
  (exists t, default (VInt 0) (d !! "total_prompts") = VInt t
             /\ d1 !! "total_prompts" = Some (VInt (t + 1)))
  /\ d1 !! "updated_at" = Some (VTime (now_stamp now))
  /\ forall k, k ∉ touched_fields -> d1 !! k = d !! k.
Proof.
  unfold updated_stats, get_plus_one.
  rewrite apply_rollover_other by done.
  destruct (default (VInt 0) (d !! "total_prompts")) as [t| |];
    cbn [bind]; try discriminate.
  rewrite lookup_insert_ne by done.
  destruct (default (VInt 0) (apply_rollover _ d !! "prompts_today"))
    as [c| |]; cbn [bind]; try discriminate.
  intros [= <-]. split; [|split].
  - exists t. split; [reflexivity|].
    do 2 (rewrite lookup_insert_ne by done). apply lookup_insert_eq.
  - apply lookup_insert_eq.
  - intros k Hk. unfold touched_fields in Hk.
    rewrite !lookup_insert_ne by (intros <-; apply Hk; set_solver).
    apply apply_rollover_other; intros ->; apply Hk; set_solver.
Qed.

Lemma union_keeps (d1 d : doc) k : d1 !! k = d !! k -> (d1 ∪ d) !! k = d !! k.
Proof.
  intros H. rewrite lookup_union, H. destruct (d !! k); reflexivity.
Qed.

(** The update when the store answers. *)
Lemma update_stats_written w e user_id d1 :
  firebase_ready w = true ->
  stats_get_raises e = None -> stats_set_raises e = None ->
  updated_stats (now e) (users w !! user_id) = Ok d1 ->
  users (update_prompt_usage_stats w e user_id) !! user_id
  = Some (d1 ∪ default ∅ (users w !! user_id)).
Proof.
  intros Hr Hg Hs Hu. unfold update_prompt_usage_stats.
  rewrite Hr, Hg, Hs, Hu. cbn. apply lookup_insert_eq.
Qed.

(** X9.  An update of the usage counter that the store accepts adds one
    to the count of the day and to the lifetime total (the total is not
    reset with the day), stamps the day and the time, and keeps every other
    field of the user's document, such as the daily limit. *)
Theorem usage_update_keeps_other_fields (w : world) (e : env)
    (user_id : string) (d : doc) (c : Z) :
  firebase_ready w = true ->
  stats_get_raises e = None -> stats_set_raises e = None ->
  users w !! user_id = Some d ->
  starts_at (isoformat (now_date (now e))) c (Some d) ->
  exists d' t,
    users (update_prompt_usage_stats w e user_id) !! user_id = Some d'
    /\ d' !! "prompts_today" = Some (VInt (c + 1))
    /\ d' !! "last_reset_date" = Some (VStr (isoformat (now_date (now e))))
    /\ default (VInt 0) (d !! "total_prompts") = VInt t
    /\ d' !! "total_prompts" = Some (VInt (t + 1))
    /\ d' !! "updated_at" = Some (VTime (now_stamp (now e)))
    /\ forall k, k ∉ touched_fields -> d' !! k = d !! k.
Proof.
  intros Hr Hg Hs Hd Hc.
  destruct (updated_stats_counted (now e) (Some d) c Hc) as (d1 & Hup & Hc1).
  destruct (updated_stats_fields (now e) d d1 Hup)
    as ((t & Ht & Ht1) & Hat & Hkeep).
  destruct (Hc1 d) as (Hdate & Hcount & _).
  exists (d1 ∪ d), t. split.
  { rewrite (update_stats_written w e user_id d1); rewrite ?Hd; auto. }
  split; [exact Hcount|]. split; [exact Hdate|]. split; [exact Ht|].
  split; [erewrite lookup_union_Some_l; eauto|].
  split; [erewrite lookup_union_Some_l; eauto|].
  intros k Hk. apply union_keeps, Hkeep, Hk.
Qed.

Lemma usage_update_keeps_other_fields_witness :
  exists d',
    users (update_prompt_usage_stats (world_of true spent_doc) calm "u1")
      !! "u1" = Some d'
    /\ d' !! "prompts_today" = Some (VInt 1)
    /\ d' !! "total_prompts" = Some (VInt 1)
    /\ d' !! "daily_limit" = Some (VInt 100).
Proof.
  destruct (usage_update_keeps_other_fields (world_of true spent_doc) calm
              "u1" spent_doc 0)
    as (d' & t & Hd & Hc & _ & Ht & Ht' & _ & Hk);
    [reflexivity | reflexivity | reflexivity | reflexivity
    | split; [reflexivity | exact I] |].
  exists d'. split; [exact Hd|]. split; [exact Hc|].
  assert (t = 0) as -> by (vm_compute in Ht; congruence).
  split; [exact Ht'|].
  rewrite Hk; [reflexivity|].
  apply (bool_decide_unpack _). vm_compute. exact I.
Defined.

(** ** A served request *)

Lemma check_rate_limit_ints w e user_id (d : doc) p limit :
  firebase_ready w = true -> check_get_raises e = None ->
  users w !! user_id = Some d ->
  default (VInt 0) (d !! "prompts_today") = VInt p ->
  default (VInt 100) (d !! "daily_limit") = VInt limit ->
  check_rate_limit w e (Some user_id)
  = if limit <=? p
    then Ok (Some {| status := 429;
                     payload := LimitBody "Daily limit reached"
                                  (VInt limit) (VInt p) |})
    else Ok None.
Proof.
  intros Hr He Hd Hp Hl. unfold check_rate_limit.
  rewrite Hr, He, Hd, Hp, Hl. cbn. destruct (limit <=? p); reflexivity.
Qed.

(** A request that passes the checks while the store and the model answer:
    the answer is a success, and the store holds the merged update and at
    most one more prompt, of the caller. *)
Lemma generate_served w e r user_id c :
  asks user_id r ->
  firebase_ready w = true ->
  healthy (now_date (now e)) e ->
  check_rate_limit w e (Some user_id) = Ok None ->
  starts_at (isoformat (now_date (now e))) c (users w !! user_id) ->
  exists resp w' d1,
    generate w e r = (Ok resp, w')
    /\ status resp = 200
    /\ firebase_ready w' = true
    /\ updated_stats (now e) (users w !! user_id) = Ok d1
    /\ users w' !! user_id = Some (d1 ∪ default ∅ (users w !! user_id))
    /\ counted (isoformat (now_date (now e))) (c + 1)
         (d1 ∪ default ∅ (users w !! user_id))
    /\ match prompt_set_raises e with
       | None => exists data,
                   p_user_id data = user_id
                   /\ prompts w' = prompts w ++ [(new_id e, data)]
       | Some _ => prompts w' = prompts w
       end.
Proof.
  intros [Hu Hin] Hr (_ & Hcg & Hsg & Hss & Hmodel) Hc Hstart.
  destruct (updated_stats_counted (now e) _ c Hstart) as (d1 & Hup & Hc1).
  unfold generate. rewrite Hin, Hu, Hc. unfold try_enhance.
  destruct (Hmodel (full_input
              (strip (default EmptyString (req_prompt r)))
              (lower (default "text" (req_type r)))
              (default "detailed" (req_complexity r)))) as [text Hm].
  destruct (enhance_ok w e (Some user_id) _ _ _ _ Hm) as (qm & _ & ->).
  cbv zeta. unfold stored_after. cbn [fst snd].
  match goal with
  | |- context [save_prompt_to_firestore ?a ?b ?c ?d ?f ?g ?h] =>
      pose proof (save_prompt_effect a b c d f g h) as Hsave;
      set (saved := save_prompt_to_firestore a b c d f g h) in *
  end.
  cbv zeta in Hsave. destruct Hsave as (Hr1 & Hu1 & Hp1).
  destruct (update_stats_effect (snd saved) e user_id) as (Hr2 & Hp2 & _).
  eexists. eexists. exists d1. split; [reflexivity|].
  split; [reflexivity|]. split; [congruence|]. split; [exact Hup|].
  split.
  { rewrite <- Hu1. apply update_stats_written; rewrite ?Hu1; congruence. }
  split; [apply Hc1|].
  rewrite Hp2.
  destruct Hp1 as [[_ Hw] | (_ & Hnone & _ & data & Hd & _ & _ & Hp)].
  - rewrite Hw. destruct (prompt_set_raises e) eqn:Hps; [reflexivity|].
    exfalso. clear -Hw Hr Hps. subst saved.
    unfold save_prompt_to_firestore in Hw. rewrite Hr, Hps in Hw.
    cbn in Hw. apply (f_equal prompts) in Hw. cbn in Hw.
    apply (f_equal length) in Hw. rewrite length_app in Hw. cbn in Hw. lia.
  - rewrite Hnone. exists data. auto.
Qed.

(** X10.  An authenticated request that passes the rate limit while the
    store and the model answer is answered 200 and counted exactly once:
    [prompts_today] goes from the count of the day to one more, and one
    prompt of the caller is saved (none when saving it raises). *)
Theorem served_request_counts_once (w : world) (e : env) (r : request)
    (user_id : string) (c : Z) :
  asks user_id r ->
  firebase_ready w = true ->
  healthy (now_date (now e)) e ->
  check_rate_limit w e (Some user_id) = Ok None ->
  starts_at (isoformat (now_date (now e))) c (users w !! user_id) ->
  exists resp w',
    generate w e r = (Ok resp, w')
    /\ status resp = 200
    /\ stored_count (users w') user_id = Some (VInt (c + 1))
    /\ match prompt_set_raises e with
       | None => exists data,
                   p_user_id data = user_id
                   /\ prompts w' = prompts w ++ [(new_id e, data)]
       | Some _ => prompts w' = prompts w
       end.
Proof.
  intros Ha Hr Hh Hc Hs.
  destruct (generate_served w e r user_id c Ha Hr Hh Hc Hs)
    as (resp & w' & d1 & Hg & Hst & _ & _ & Hd & (_ & Hcount & _) & Hp).
  exists resp, w'. split; [exact Hg|]. split; [exact Hst|].
  split; [|exact Hp]. unfold stored_count. rewrite Hd. exact Hcount.
Qed.

Lemma served_request_counts_once_witness :
  exists resp w',
    generate (world_of true fresh_doc) calm signed_in = (Ok resp, w')
    /\ status resp = 200
    /\ stored_count (users w') "u1" = Some (VInt 1).
Proof.
  destruct (served_request_counts_once (world_of true fresh_doc) calm
              signed_in "u1" 0) as (resp & w' & Hg & Hs & Hc & _).
  - split; reflexivity.
  - reflexivity.
  - repeat split; try reflexivity. intros x. eexists. reflexivity.
  - reflexivity.
  - split; [reflexivity | exact I].
  - exists resp, w'. auto.
Defined.

(** ** Requests one after the other *)

Lemma generate_denied w e r user_id denied :
  asks user_id r ->
  check_rate_limit w e (Some user_id) = Ok (Some denied) ->
  generate w e r = (Ok denied, w).
Proof.
  intros [Hu Hin] Hc. unfold generate. rewrite Hin, Hu, Hc. reflexivity.
Qed.

(** X11.  A user whose stored count has reached the limit is refused on
    every later request, whatever the day of the request, and none of these
    requests changes the store. *)
Theorem user_at_limit_stays_denied (w : world) (batch : list (env * request))
    (user_id : string) (d : doc) (p limit : Z) :
  firebase_ready w = true ->
  users w !! user_id = Some d ->
  default (VInt 0) (d !! "prompts_today") = VInt p ->
  default (VInt 100) (d !! "daily_limit") = VInt limit ->
  limit <= p ->
  Forall (fun er : env * request =>
            check_get_raises (fst er) = None /\ asks user_id (snd er)) batch ->
  snd (serve w batch) = w
  /\ map status_of (fst (serve w batch))
     = replicate (length batch) (Some 429).
Proof.
  intros Hr Hd Hp Hl Hle Hall.
  induction Hall as [|[e r] rest [He Ha] _ IH]; [split; reflexivity|].
  cbn [fst snd] in He, Ha. cbn [serve].
  erewrite generate_denied; [|exact Ha|].
  2:{ rewrite (check_rate_limit_ints w e user_id d p limit) by assumption.
      replace (limit <=? p) with true by (symmetry; apply Z.leb_le; lia).
      reflexivity. }
  destruct (serve w rest) as [answers w2]. cbn [fst snd map length] in *.
  destruct IH as [-> ->]. split; reflexivity.
Qed.

(** X12.  Requests of one user that follow each other within a day,
    with the store and the model answering: from a count [c] and a limit
    [limit], the first [limit - c] are answered 200 and all the later ones
    429, and the stored count ends at [c] plus the number served. *)
Theorem daily_limit_enforced (w : world) (batch : list (env * request))
    (user_id : string) (today : date) (d : doc) (c limit : Z) :
  firebase_ready w = true ->
  users w !! user_id = Some d ->
  counted (isoformat today) c d ->
  default (VInt 100) (d !! "daily_limit") = VInt limit ->
  Forall (fun er : env * request =>
            healthy today (fst er) /\ asks user_id (snd er)) batch ->
  let served := Nat.min (length batch) (Z.to_nat (limit - c)) in
  map status_of (fst (serve w batch))
  = replicate served (Some 200)
    ++ replicate (length batch - served) (Some 429)
  /\ stored_count (users (snd (serve w batch))) user_id
     = Some (VInt (c + Z.of_nat served)).
Proof.
  intros Hr Hd Hc Hl Hall. revert w d c Hr Hd Hc Hl.
  induction Hall as [|[e r] rest [Hh Ha] _ IH]; intros w d c Hr Hd Hc Hl.
  { cbn. rewrite Z.add_0_r. unfold stored_count. rewrite Hd. cbn.
    split; [reflexivity|]. apply Hc. }
  cbn [fst snd] in Hh, Ha. cbn [serve length].
  pose proof Hh as (Htoday & Hcg & _).
  pose proof Hc as (_ & Hcount & _).
  pose proof (check_rate_limit_ints w e user_id d c limit Hr Hcg Hd) as Hcheck.
  rewrite Hcount in Hcheck. specialize (Hcheck eq_refl Hl).
  destruct (Z.leb_spec limit c) as [Hle | Hlt].
  - (* the limit is reached *)
    rewrite (generate_denied w e r user_id _ Ha Hcheck).
    specialize (IH w d c Hr Hd Hc Hl).
    destruct (serve w rest) as [answers w2]. cbn [fst snd map] in *.
    replace (Z.to_nat (limit - c)) with 0%nat in * by lia.
    rewrite Nat.min_0_r in *. cbn [replicate app] in *.
    rewrite Nat.sub_0_r in *. destruct IH as [-> ->].
    split; reflexivity.
  - (* the request is served and counted *)
    rewrite <- Htoday in Hc.
    destruct (generate_served w e r user_id c Ha Hr)
      as (resp & w' & d1 & Hg & Hst & Hr' & Hup & Hd' & Hc' & _).
    { rewrite Htoday. exact Hh. }
    { exact Hcheck. }
    { rewrite Hd. apply counted_starts_at, Hc. }
    rewrite Hg. rewrite Hd in Hup, Hd', Hc'. cbn [default] in Hd', Hc'.
    destruct (updated_stats_fields (now e) d d1 Hup) as (_ & _ & Hkeep).
    rewrite Htoday in Hc'.
    specialize (IH w' (d1 ∪ d) (c + 1) Hr' Hd' Hc').
    destruct IH as [IH1 IH2].
    { rewrite union_keeps; [exact Hl|]. apply Hkeep.
      apply (bool_decide_unpack _). vm_compute. exact I. }
    destruct (serve w' rest) as [answers w2].
    cbn [fst snd map status_of] in *.
    replace (Z.to_nat (limit - c)) with (S (Z.to_nat (limit - (c + 1))))
      by lia.
    rewrite <- Nat.succ_min_distr. cbn [replicate app Nat.sub].
    rewrite IH1, IH2, Hst. split; [reflexivity|]. do 2 f_equal. lia.
Qed.

Lemma user_at_limit_stays_denied_witness :
  snd (serve (world_of true spent_doc)
         [(calm, signed_in); (model_down, signed_in)])
  = world_of true spent_doc
  /\ map status_of
       (fst (serve (world_of true spent_doc)
               [(calm, signed_in); (model_down, signed_in)]))
     = [Some 429; Some 429].
Proof.
  apply (user_at_limit_stays_denied (world_of true spent_doc)
           [(calm, signed_in); (model_down, signed_in)] "u1" spent_doc
           100 100);
    [reflexivity | reflexivity | reflexivity | reflexivity | lia
    | repeat constructor].
Defined.

Lemma daily_limit_enforced_witness :
  map status_of
    (fst (serve (world_of true single_doc)
            [(calm, signed_in); (calm, signed_in); (calm, signed_in)]))
  = [Some 200; Some 429; Some 429]
  /\ stored_count
       (users (snd (serve (world_of true single_doc)
                      [(calm, signed_in); (calm, signed_in);
                       (calm, signed_in)]))) "u1"
     = Some (VInt 1).
Proof.
  assert (Hh : healthy day2 calm).
  { repeat split; try reflexivity. intros x. eexists. reflexivity. }
  assert (Ha : asks "u1" signed_in) by (split; reflexivity).
  apply (daily_limit_enforced (world_of true single_doc)
           [(calm, signed_in); (calm, signed_in); (calm, signed_in)]
           "u1" day2 single_doc 0 1); try reflexivity.
  - repeat split; try reflexivity. exists 0. reflexivity.
  - repeat (constructor; [split; assumption|]). constructor.
Defined.

(** ** Accounting that fails *)

(** X13.  When the model answers but the store is not initialised, or
    both saving the prompt and updating the counter raise, the request is
    still answered 200, with no prompt id, and the store is unchanged. *)
Theorem failed_accounting_still_serves (w : world) (e : env) (r : request)
    (text : string) :
  let user_input := strip (default EmptyString (req_prompt r)) in
  let prompt_type := lower (default "text" (req_type r)) in
  let complexity := default "detailed" (req_complexity r) in
  is_empty user_input = false ->
  check_rate_limit w e (req_user r) = Ok None ->
  model_text e (full_input user_input prompt_type complexity) = Ok text ->
  firebase_ready w = false
  \/ (is_Some (prompt_set_raises e)
      /\ (is_Some (stats_get_raises e) \/ is_Some (stats_set_raises e))) ->
  exists quality_metrics,
    generate w e r
    = (Ok {| status := 200;
             payload :=
               SuccessBody (strip text) prompt_type complexity
                 quality_metrics
                 (Z.of_nat (length (split (strip text))))
                 (str_len (strip text)) None
                 (bool_decide (is_Some (req_user r))) |},
       w).
Proof.
  intros user_input prompt_type complexity Hin Hc Hm Hdown.
  unfold generate. fold user_input prompt_type complexity.
  rewrite Hin, Hc. unfold try_enhance.
  destruct (enhance_ok w e (req_user r) _ _ _ _ Hm) as (qm & _ & ->).
  exists qm. cbv zeta. unfold stored_after.
  destruct (req_user r) as [user_id|]; [|reflexivity].
  unfold save_prompt_to_firestore, update_prompt_usage_stats.
  destruct Hdown as [Hr | ([x Hx] & Hstats)].
  - rewrite Hr. cbn [negb fst snd]. rewrite Hr. reflexivity.
  - rewrite Hx. destruct (firebase_ready w) eqn:Hr; cbn [negb fst snd];
      rewrite Hr; cbn [negb]; [|reflexivity].
    destruct Hstats as [[y ->] | [y Hy]]; cbn [attempt bind];
      [reflexivity|].
    destruct (attempt (stats_get_raises e)); cbn [bind]; [|reflexivity].
    destruct (updated_stats _ _); cbn [bind]; [|reflexivity].
    rewrite Hy. reflexivity.
Qed.

Lemma failed_accounting_still_serves_witness :
  exists resp,
    generate (world_of true fresh_doc)
      {| now := now calm;
         check_get_raises := None;
         stats_get_raises := Some (ExternalError "503 unavailable");
         stats_set_raises := None;
         prompt_set_raises := Some (ExternalError "503 unavailable");
         new_id := "p1";
         model_text := model_text calm |} signed_in
    = (Ok resp, world_of true fresh_doc)
    /\ status resp = 200.
Proof.
  destruct (failed_accounting_still_serves (world_of true fresh_doc)
              {| now := now calm;
                 check_get_raises := None;
                 stats_get_raises := Some (ExternalError "503 unavailable");
                 stats_set_raises := None;
                 prompt_set_raises := Some (ExternalError "503 unavailable");
                 new_id := "p1";
                 model_text := model_text calm |} signed_in
              "Write a formal report.") as (qm & H).
  - reflexivity.
  - reflexivity.
  - reflexivity.
  - right. split; [eexists; reflexivity | left; eexists; reflexivity].
  - eexists. split; [exact H | reflexivity].
Defined.

(** ** Splitting and joining *)

Lemma append_nil_r s : s +:+ EmptyString = s.
Proof.
  induction s as [|c s IH]; [reflexivity|].
  rewrite append_cons, IH. reflexivity.
Qed.

Lemma append_assoc a b c : (a +:+ b) +:+ c = a +:+ (b +:+ c).
Proof.
  induction a as [|x a IH]; [reflexivity|].
  rewrite !append_cons, IH. reflexivity.
Qed.

Lemma rev_string_app acc s :
  rev_string acc s = rev_string EmptyString s +:+ acc.
Proof.
  revert acc. induction s as [|c s IH]; intros acc; [reflexivity|].
  cbn [rev_string]. rewrite (IH (String c acc)), (IH (String c EmptyString)).
  rewrite append_assoc. reflexivity.
Qed.

Lemma rev_string_cons c cur :
  rev_string EmptyString (String c cur)
  = rev_string EmptyString cur +:+ String c EmptyString.
Proof. cbn [rev_string]. apply rev_string_app. Qed.

Lemma startswith_length p s :
  startswith p s = true -> (String.length p <= String.length s)%nat.
Proof.
  revert s. induction p as [|a p IH]; intros [|b s] H; cbn in *;
    try lia; try discriminate.
  destruct (Ascii.eqb a b); [|discriminate]. apply IH in H. lia.
Qed.

Lemma startswith_drop p s :
  startswith p s = true -> s = p +:+ drop_chars (String.length p) s.
Proof.
  revert s. induction p as [|a p IH]; intros [|b s] H; cbn in H;
    try reflexivity; try discriminate.
  destruct (Ascii.eqb_spec a b) as [->|]; [|discriminate].
  rewrite append_cons. cbn [String.length drop_chars]. f_equal. auto.
Qed.

Lemma startswith_self p s : startswith p (p +:+ s) = true.
Proof.
  induction p as [|a p IH]; [reflexivity|].
  rewrite append_cons. cbn [startswith]. rewrite Ascii.eqb_refl. exact IH.
Qed.

Lemma split_on_from_cons sep skip cur s :
  exists piece rest, split_on_from sep skip cur s = piece :: rest.
Proof.
  revert skip cur. induction s as [|c s IH]; intros skip cur; cbn.
  - eauto.
  - destruct skip; [|apply IH].
    destruct (startswith sep (String c s)); [eauto|apply IH].
Qed.

Lemma join_cons sep x l :
  l <> [] -> join sep (x :: l) = x +:+ sep +:+ join sep l.
Proof. destruct l; [congruence|reflexivity]. Qed.

Lemma join_split_on_from sep s :
  sep <> EmptyString ->
  forall skip cur,
    (skip <= String.length s)%nat ->
    join sep (split_on_from sep skip cur s)
    = rev_string EmptyString cur +:+ drop_chars skip s.
Proof.
  intros Hsep. induction s as [|c s IH]; intros skip cur Hskip.
  - cbn in Hskip. replace skip with 0%nat by lia. cbn.
    rewrite append_nil_r. reflexivity.
  - cbn [split_on_from]. destruct skip as [|k].
    + destruct (startswith sep (String c s)) eqn:Hs.
      * pose proof (startswith_length _ _ Hs) as Hlen.
        pose proof (startswith_drop _ _ Hs) as Hdrop.
        destruct sep as [|a sep']; [congruence|].
        cbn [String.length] in *.
        replace (S (String.length sep') - 1)%nat with (String.length sep')
          by lia.
        destruct (split_on_from_cons (String a sep') (String.length sep')
                    EmptyString s) as (piece & rest & Hp).
        rewrite join_cons by (rewrite Hp; discriminate).
        rewrite IH by lia. cbn [rev_string drop_chars] in *.
        change (EmptyString +:+ drop_chars (String.length sep') s)
          with (drop_chars (String.length sep') s).
        rewrite <- Hdrop. reflexivity.
      * rewrite IH by lia. rewrite rev_string_cons, append_assoc.
        reflexivity.
    + cbn [String.length] in Hskip. rewrite IH by lia. reflexivity.
Qed.

(** Joining the pieces of a split with the separator gives the text back. *)
Lemma split_on_join_round_trip (sep s : string) :
  sep <> EmptyString -> join sep (split_on sep s) = s.
Proof.
  intros Hsep. unfold split_on.
  rewrite (join_split_on_from sep s Hsep 0 EmptyString) by lia.
  reflexivity.
Qed.

Example split_on_demo :
  split_on ", " "a, b, , c" = ["a"; "b"; ""; "c"]
  /\ join ", " (split_on ", " "a, b, , c") = "a, b, , c".
Proof.
  split; [reflexivity|]. apply split_on_join_round_trip. discriminate.
Defined.

(** ** The bearer token *)

Lemma split_on_from_skip sep p cur s :
  split_on_from sep (String.length p) cur (p +:+ s)
  = split_on_from sep 0 cur s.
Proof.
  induction p as [|a p IH]; [reflexivity|].
  rewrite append_cons. cbn [String.length split_on_from]. exact IH.
Qed.

Lemma split_on_prefix sep rest :
  sep <> EmptyString ->
  split_on sep (sep +:+ rest) = EmptyString :: split_on sep rest.
Proof.
  intros Hsep. unfold split_on. destruct sep as [|a sep']; [congruence|].
  pose proof (startswith_self (String a sep') rest) as Hs.
  rewrite append_cons in *. cbn [split_on_from]. rewrite Hs.
  cbn [String.length rev_string].
  replace (S (String.length sep') - 1)%nat with (String.length sep') by lia.
  rewrite split_on_from_skip. reflexivity.
Qed.

Lemma split_on_from_whole sep cur s :
  contains sep s = false ->
  split_on_from sep 0 cur s = [rev_string EmptyString cur +:+ s].
Proof.
  revert cur. induction s as [|c s IH]; intros cur H.
  - cbn. rewrite append_nil_r. reflexivity.
  - cbn [contains] in H. apply orb_false_iff in H as [Hs Hc].
    cbn [split_on_from]. rewrite Hs, IH by exact Hc.
    rewrite rev_string_cons, append_assoc. reflexivity.
Qed.

Lemma startswith_empty_false p : p <> EmptyString -> startswith p EmptyString = false.
Proof. destruct p; [congruence|reflexivity]. Qed.

(** X14.  For a header that starts with the bearer prefix the index of
    the split never fails: the token is the text after the prefix up to the
    next occurrence of the prefix, and all of it when there is none. *)
Theorem bearer_token_extraction (auth_header : string) :
  startswith "Bearer " auth_header = true ->
  exists rest token pieces,
    auth_header = "Bearer " +:+ rest
    /\ split_on "Bearer " rest = token :: pieces
    /\ header_token (Some auth_header) = Some (Ok token)
    /\ (contains "Bearer " rest = false -> token = rest).
Proof.
  intros Hs. pose proof (startswith_drop _ _ Hs) as Hh.
  set (rest := drop_chars (String.length "Bearer ") auth_header) in *.
  destruct (split_on_from_cons "Bearer " 0 EmptyString rest)
    as (token & pieces & Hp).
  exists rest, token, pieces. split; [exact Hh|]. split; [exact Hp|]. split.
  - unfold header_token. rewrite Hs.
    assert (is_empty auth_header = false) as ->
      by (destruct auth_header; [discriminate|reflexivity]).
    cbn [negb andb]. rewrite Hh at 1.
    rewrite split_on_prefix by discriminate.
    unfold split_on. rewrite Hp. reflexivity.
  - intros Hc. unfold split_on in Hp.
    rewrite (split_on_from_whole _ _ _ Hc) in Hp. injection Hp as <- _.
    reflexivity.
Qed.

Lemma bearer_token_extraction_witness :
  header_token (Some "Bearer abc.def") = Some (Ok "abc.def")
  /\ header_token (Some "Bearer oneBearer two") = Some (Ok "one").
Proof.
  split; [|reflexivity].
  destruct (bearer_token_extraction "Bearer abc.def")
    as (rest & token & pieces & Hh & _ & Ht & Hw); [reflexivity|].
  rewrite Ht. do 2 f_equal.
  assert (rest = "abc.def") as ->.
  { apply (f_equal (drop_chars 7)) in Hh. vm_compute in Hh. congruence. }
  apply Hw. reflexivity.
Defined.

(** ** The decorators *)

(** A header never makes the index of the split fail. *)
Lemma header_token_ok auth_header :
  header_token auth_header = None
  \/ exists token, header_token auth_header = Some (Ok token).
Proof.
  destruct auth_header as [h|]; [|left; reflexivity].
  unfold header_token.
  destruct (startswith "Bearer " h) eqn:Hs;
    [|left; rewrite andb_false_r; reflexivity].
  right.
  assert (is_empty h = false) as ->
    by (destruct h; [discriminate|reflexivity]).
  cbn [negb andb]. rewrite (startswith_drop _ _ Hs).
  rewrite split_on_prefix by discriminate.
  destruct (split_on_from_cons "Bearer " 0 EmptyString
              (drop_chars (String.length "Bearer ") h))
    as (token & pieces & Hp).
  unfold split_on. rewrite Hp. exists token. reflexivity.
Qed.

Lemma login_required_cases {A : Type} (verify : string -> result string)
    (f : string -> result A) (auth_header : option string) :
  (header_token auth_header = None
   /\ login_required verify f auth_header
      = Ok (Rejected "Authentication required" None))
  \/ (exists token x,
        header_token auth_header = Some (Ok token)
        /\ (verify token = Raise x
            \/ exists uid, verify token = Ok uid /\ f uid = Raise x)
        /\ login_required verify f auth_header
           = Ok (Rejected "Invalid authentication token" (Some x)))
  \/ (exists token uid a,
        header_token auth_header = Some (Ok token)
        /\ verify token = Ok uid /\ f uid = Ok a
        /\ login_required verify f auth_header = Ok (Handled a)).
Proof.
  unfold login_required.
  destruct (header_token_ok auth_header) as [-> | [token ->]]; [auto|].
  right. cbn [bind].
  destruct (verify token) as [uid|x] eqn:Hv; cbn [bind].
  - destruct (f uid) as [a|x] eqn:Hf.
    + right. exists token, uid, a. auto.
    + left. exists token, x. eauto 7.
  - left. exists token, x. auto.
Qed.

(** X15.  [login_required] always answers.  The handler's result is
    returned only when the header carries a token that verifies, and an
    exception of the handler itself is answered like a token that does
    not verify, with the 401 of an invalid token. *)
Theorem login_required_guards {A : Type} (verify : string -> result string)
    (f : string -> result A) (auth_header : option string) :
  (exists g, login_required verify f auth_header = Ok g)
  /\ (forall a,
        login_required verify f auth_header = Ok (Handled a) ->
        exists token uid,
          header_token auth_header = Some (Ok token)
          /\ verify token = Ok uid /\ f uid = Ok a)
  /\ (forall token uid x,
        header_token auth_header = Some (Ok token) ->
        verify token = Ok uid -> f uid = Raise x ->
        login_required verify f auth_header
        = Ok (Rejected "Invalid authentication token" (Some x))).
Proof.
  destruct (login_required_cases verify f auth_header)
    as [[Hn Hl] | [(token & x & Ht & Hx & Hl) | (token & uid & a & Ht & Hv & Hf & Hl)]].
  - split; [eauto|]. split.
    + intros a Ha. congruence.
    + intros token uid x Ht. congruence.
  - split; [eauto|]. split.
    + intros a Ha. congruence.
    + intros token' uid x' Ht' Hv Hf. rewrite Hl. do 3 f_equal.
      destruct Hx as [Hx | (uid' & Hv' & Hf')]; congruence.
  - split; [eauto|]. split.
    + intros a' Ha. exists token, uid. rewrite Hl in Ha. injection Ha as <-.
      auto.
    + intros token' uid' x Ht' Hv' Hf'. congruence.
Qed.

Lemma login_required_guards_witness :
  login_required (fun _ => Ok "u1")
    (fun _ : string => @Raise unit TypeError) (Some "Bearer t")
  = Ok (Rejected "Invalid authentication token" (Some TypeError)).
Proof.
  destruct (login_required_guards (fun _ => Ok "u1")
              (fun _ : string => @Raise unit TypeError) (Some "Bearer t"))
    as (_ & _ & H).
  apply (H "t" "u1"); reflexivity.
Defined.

(** ** The routes on one prompt *)

Lemma remove_prompt_cons prompt_id k d l :
  remove_prompt prompt_id ((k, d) :: l)
  = if str_eqb prompt_id k then remove_prompt prompt_id l
    else (k, d) :: remove_prompt prompt_id l.
Proof.
  unfold remove_prompt. cbn [List.filter fst].
  destruct (str_eqb prompt_id k); reflexivity.
Qed.

Lemma find_remove_same prompt_id l :
  find_prompt prompt_id (remove_prompt prompt_id l) = None.
Proof.
  induction l as [|[k d] l IH]; [reflexivity|].
  rewrite remove_prompt_cons.
  destruct (str_eqb prompt_id k) eqn:E; [exact IH|].
  cbn [find_prompt]. rewrite IH, E. reflexivity.
Qed.

Lemma find_remove_other prompt_id other l :
  other <> prompt_id ->
  find_prompt other (remove_prompt prompt_id l) = find_prompt other l.
Proof.
  intros Hne. induction l as [|[k d] l IH]; [reflexivity|].
  rewrite remove_prompt_cons. cbn [find_prompt].
  destruct (str_eqb prompt_id k) eqn:E.
  - apply str_eqb_true in E. subst k. rewrite IH.
    unfold str_eqb.
    destruct (String.eqb_spec other prompt_id); [congruence|].
    destruct (find_prompt other l); reflexivity.
  - cbn [find_prompt]. rewrite IH. reflexivity.
Qed.

Lemma find_app_last prompt_id d l :
  find_prompt prompt_id (l ++ [(prompt_id, d)]) = Some d.
Proof.
  induction l as [|[k d'] l IH].
  - cbn. unfold str_eqb. rewrite String.eqb_refl. reflexivity.
  - cbn [app find_prompt]. rewrite IH. reflexivity.
Qed.

Lemma find_app_other prompt_id other d l :
  other <> prompt_id ->
  find_prompt other (l ++ [(prompt_id, d)]) = find_prompt other l.
Proof.
  intros Hne. induction l as [|[k d'] l IH].
  - cbn. unfold str_eqb.
    destruct (String.eqb_spec other prompt_id); [congruence|reflexivity].
  - cbn [app find_prompt]. rewrite IH. reflexivity.
Qed.

(** X16.  [delete_prompt] never touches the users, never adds a prompt,
    and leaves every prompt in place except the one asked for, and that one
    too unless the caller owns it. *)
Theorem delete_prompt_owner_only (w : world) (f : prompt_faults)
    (uid prompt_id : string) :
  let w' := snd (delete_prompt w f uid prompt_id) in
  users w' = users w
  /\ firebase_ready w' = firebase_ready w
  /\ (forall other d,
        find_prompt other (prompts w) = Some d ->
        other <> prompt_id \/ p_user_id d <> uid ->
        find_prompt other (prompts w') = Some d)
  /\ (forall other d,
        find_prompt other (prompts w') = Some d ->
        find_prompt other (prompts w) = Some d).
Proof.
  cbv zeta. unfold delete_prompt.
  destruct (negb (firebase_ready w)); [cbn [snd]; auto|].
  destruct (prompt_get_raises f); [cbn [snd]; auto|].
  destruct (find_prompt prompt_id (prompts w)) as [data|] eqn:Hfind;
    [|cbn [snd]; auto].
  destruct (str_eqb (p_user_id data) uid) eqn:Howner; cbn [negb];
    [|cbn [snd]; auto].
  destruct (prompt_delete_raises f); [cbn [snd]; auto|].
  cbn [snd users firebase_ready prompts].
  apply str_eqb_true in Howner.
  split; [reflexivity|]. split; [reflexivity|]. split.
  - intros other d Hd Hkeep.
    destruct (decide (other = prompt_id)) as [->|Hne].
    + destruct Hkeep as [Hk|Hk]; [congruence|].
      rewrite Hfind in Hd. congruence.
    + rewrite find_remove_other by assumption. exact Hd.
  - intros other d Hd.
    destruct (decide (other = prompt_id)) as [->|Hne].
    + rewrite find_remove_same in Hd. discriminate.
    + rewrite find_remove_other in Hd by assumption. exact Hd.
Qed.

(** X17.  When [delete_prompt] answers with success, the prompt existed
    and belonged to the caller, and afterwards it is not found any more:
    [get_prompt] answers 404 for it to everyone. *)
Theorem deleted_prompt_is_gone (w : world) (f g : prompt_faults)
    (uid reader prompt_id : string) :
  fst (delete_prompt w f uid prompt_id) = Deleted ->
  prompt_get_raises g = None ->
  (exists data,
      find_prompt prompt_id (prompts w) = Some data
      /\ p_user_id data = uid)
  /\ find_prompt prompt_id (prompts (snd (delete_prompt w f uid prompt_id)))
     = None
  /\ get_prompt (snd (delete_prompt w f uid prompt_id)) g reader prompt_id
     = Failed 404 "Prompt not found" None.
Proof.
  unfold delete_prompt, get_prompt.
  destruct (firebase_ready w) eqn:Hr; cbn [negb]; [|discriminate].
  destruct (prompt_get_raises f); [discriminate|].
  destruct (find_prompt prompt_id (prompts w)) as [data|]; [|discriminate].
  destruct (str_eqb (p_user_id data) uid) eqn:Howner; cbn [negb];
    [|discriminate].
  destruct (prompt_delete_raises f); [discriminate|].
  intros _ Hg. cbn [snd prompts firebase_ready]. rewrite Hg.
  cbn [negb]. rewrite find_remove_same.
  apply str_eqb_true in Howner. eauto.
Qed.

(** X18.  [get_prompt] answers 200 only with a stored prompt that the
    caller owns; for a prompt of somebody else it answers 403. *)
Theorem get_prompt_owner_only (w : world) (f : prompt_faults)
    (uid prompt_id : string) :
  (answer_status (get_prompt w f uid prompt_id) = 200 ->
   exists data,
     get_prompt w f uid prompt_id = Found prompt_id data
     /\ find_prompt prompt_id (prompts w) = Some data
     /\ p_user_id data = uid)
  /\ (forall data,
        firebase_ready w = true -> prompt_get_raises f = None ->
        find_prompt prompt_id (prompts w) = Some data ->
        p_user_id data <> uid ->
        get_prompt w f uid prompt_id = Failed 403 "Unauthorized access" None).
Proof.
  unfold get_prompt. split.
  - destruct (negb (firebase_ready w)); [discriminate|].
    destruct (prompt_get_raises f); [discriminate|].
    destruct (find_prompt prompt_id (prompts w)) as [data|]; [|discriminate].
    destruct (str_eqb (p_user_id data) uid) eqn:Howner; cbn [negb];
      [|discriminate].
    intros _. apply str_eqb_true in Howner. eauto.
  - intros data -> -> -> Hother. cbn [negb]. unfold str_eqb.
    destruct (String.eqb_spec (p_user_id data) uid); [congruence|].
    reflexivity.
Qed.

Lemma deleted_prompt_is_gone_witness :
  fst (delete_prompt stocked no_faults "u1" "p1") = Deleted
  /\ get_prompt (snd (delete_prompt stocked no_faults "u1" "p1")) no_faults
       "u1" "p1"
     = Failed 404 "Prompt not found" None.
Proof.
  split; [reflexivity|].
  apply (deleted_prompt_is_gone stocked no_faults no_faults "u1" "u1" "p1");
    reflexivity.
Defined.

Lemma get_prompt_owner_only_witness :
  (exists data, get_prompt stocked no_faults "u1" "p1" = Found "p1" data
                /\ p_user_id data = "u1")
  /\ get_prompt stocked no_faults "u2" "p1"
     = Failed 403 "Unauthorized access" None.
Proof.
  destruct (get_prompt_owner_only stocked no_faults "u1" "p1") as [Hown _].
  destruct (get_prompt_owner_only stocked no_faults "u2" "p1") as [_ Hother].
  split.
  - destruct Hown as (data & Hg & _ & Hu); [reflexivity|]. eauto.
  - eapply Hother; [reflexivity | reflexivity | reflexivity |].
    vm_compute. discriminate.
Defined.

(** ** From a generation to the saved prompt *)

(** X19.  A prompt saved by [generate] is read back by [get_prompt]
    under the id the response carries: its owner gets the input and the
    enhanced text that were saved, any other user gets 403. *)
Theorem saved_prompt_round_trip (w : world) (e : env) (r : request)
    (g : prompt_faults) (user_id text : string) :
  let user_input := strip (default EmptyString (req_prompt r)) in
  let prompt_type := lower (default "text" (req_type r)) in
  let complexity := default "detailed" (req_complexity r) in
  asks user_id r ->
  firebase_ready w = true ->
  check_rate_limit w e (Some user_id) = Ok None ->
  model_text e (full_input user_input prompt_type complexity) = Ok text ->
  prompt_set_raises e = None ->
  prompt_get_raises g = None ->
  exists resp w' data,
    generate w e r = (Ok resp, w')
    /\ (exists qm n m, payload resp
                       = SuccessBody (strip text) prompt_type complexity qm n m
                           (Some (new_id e)) true)
    /\ get_prompt w' g user_id (new_id e) = Found (new_id e) data
    /\ p_original_prompt data = user_input
    /\ p_enhanced_prompt data = strip text
    /\ forall other, other <> user_id ->
         get_prompt w' g other (new_id e)
         = Failed 403 "Unauthorized access" None.
Proof.
  intros user_input prompt_type complexity [Hu Hin] Hr Hc Hm Hset Hget.
  subst user_input prompt_type complexity.
  unfold generate. rewrite Hin, Hu, Hc. unfold try_enhance.
  destruct (enhance_ok w e (Some user_id) _ _ _ _ Hm) as (qm & _ & ->).
  cbv zeta. unfold stored_after. cbn [fst snd].
  match goal with
  | |- context [save_prompt_to_firestore ?a ?b ?c ?d ?f ?h ?i] =>
      pose proof (save_prompt_effect a b c d f h i) as Hsave;
      set (saved := save_prompt_to_firestore a b c d f h i) in *
  end.
  cbv zeta in Hsave. destruct Hsave as (Hr1 & _ & Hp1).
  destruct (update_stats_effect (snd saved) e user_id) as (Hr2 & Hp2 & _).
  destruct Hp1 as [[Hnone _] | (_ & _ & Hid & data & Hd & Ho & He & Hp)].
  { exfalso. subst saved. unfold save_prompt_to_firestore in Hnone.
    rewrite Hr, Hset in Hnone. discriminate. }
  eexists. eexists. exists data. split; [reflexivity|].
  cbn [payload]. rewrite Hid. split; [eauto|].
  assert (Hfound : forall reader,
             get_prompt (update_prompt_usage_stats (snd saved) e user_id) g
               reader (new_id e)
             = if negb (str_eqb (p_user_id data) reader)
               then Failed 403 "Unauthorized access" None
               else Found (new_id e) data).
  { intros reader. unfold get_prompt.
    rewrite Hr2, Hr1, Hr, Hget, Hp2, Hp, find_app_last. reflexivity. }
  split; [|split; [exact Ho|split; [exact He|]]].
  - rewrite Hfound, Hd. unfold str_eqb. rewrite String.eqb_refl. reflexivity.
  - intros other Hne. rewrite Hfound, Hd. unfold str_eqb.
    destruct (String.eqb_spec user_id other); [congruence|reflexivity].
Qed.

Lemma saved_prompt_round_trip_witness :
  exists data,
    get_prompt stocked no_faults "u1" "p1" = Found "p1" data
    /\ p_original_prompt data = "a report"
    /\ p_enhanced_prompt data = "Write a formal report.".
Proof.
  destruct (saved_prompt_round_trip (world_of true fresh_doc) calm signed_in
              no_faults "u1" "Write a formal report.")
    as (resp & w' & data & Hg & _ & Hf & Ho & He & _);
    [split; reflexivity | reflexivity | reflexivity | reflexivity
    | reflexivity | reflexivity |].
  exists data. unfold stocked. rewrite Hg. cbn [snd]. auto.
Defined.

(** ** The routes behind the decorators *)

Lemma delete_prompt_changes w f uid prompt_id :
  snd (delete_prompt w f uid prompt_id) <> w ->
  fst (delete_prompt w f uid prompt_id) = Deleted
  /\ exists data,
       find_prompt prompt_id (prompts w) = Some data /\ p_user_id data = uid.
Proof.
  unfold delete_prompt.
  destruct (negb (firebase_ready w)); [cbn; congruence|].
  destruct (prompt_get_raises f); [cbn; congruence|].
  destruct (find_prompt prompt_id (prompts w)) as [data|]; [|cbn; congruence].
  destruct (str_eqb (p_user_id data) uid) eqn:Howner; cbn [negb];
    [|cbn; congruence].
  destruct (prompt_delete_raises f); [cbn; congruence|].
  intros _. apply str_eqb_true in Howner. cbn [fst]. eauto.
Qed.

(** X20.  The delete route changes the store only for a header whose
    token verifies, for a prompt that exists and belongs to the verified
    user; the answer is then the success of the deletion. *)
Theorem delete_route_needs_owner_token (verify : string -> result string)
    (w : world) (f : prompt_faults) (auth_header : option string)
    (prompt_id : string) :
  snd (delete_prompt_route verify w f auth_header prompt_id) <> w ->
  exists token uid data,
    header_token auth_header = Some (Ok token)
    /\ verify token = Ok uid
    /\ find_prompt prompt_id (prompts w) = Some data
    /\ p_user_id data = uid
    /\ delete_prompt_route verify w f auth_header prompt_id
       = (Ok (Handled Deleted), snd (delete_prompt w f uid prompt_id)).
Proof.
  unfold delete_prompt_route.
  destruct (login_required_cases verify
              (fun uid => Ok (delete_prompt w f uid prompt_id)) auth_header)
    as [[_ ->] | [(token & x & _ & _ & ->)
       | (token & uid & a & Ht & Hv & Hf & ->)]];
    [cbn; congruence | cbn; congruence |].
  injection Hf as <-.
  destruct (delete_prompt w f uid prompt_id) as [a w'] eqn:Hd.
  cbn [snd]. intros Hw.
  destruct (delete_prompt_changes w f uid prompt_id) as (Ha & data & Hfind & Ho).
  { rewrite Hd. exact Hw. }
  rewrite Hd in Ha. cbn [fst] in Ha. subst a.
  exists token, uid, data. repeat split; try assumption.
  rewrite Hd. reflexivity.
Qed.

Lemma delete_route_needs_owner_token_witness :
  delete_prompt_route (fun _ => Ok "u1") stocked no_faults (Some "Bearer t")
    "p1"
  = (Ok (Handled Deleted), snd (delete_prompt stocked no_faults "u1" "p1")).
Proof.
  destruct (delete_route_needs_owner_token (fun _ => Ok "u1") stocked
              no_faults (Some "Bearer t") "p1")
    as (token & uid & data & _ & Hv & _ & _ & H).
  - intros E. apply (f_equal (fun w => length (prompts w))) in E.
    vm_compute in E. discriminate.
  - injection Hv as <-. exact H.
Defined.




